(** * transcode_rtsp_windows.py: profile-to-command compiler and process supervisor

    A shallow embedding of [src/transcode_rtsp_windows.py].

    - [Py]: the pieces of the Python runtime the script relies on (exceptions,
      [int()], [str()], [str.replace], [str.lower], [str.strip], [in] on
      strings, int/float arithmetic).
    - The profile registry [ALL_STREAM_PROFILES] and [build_ffmpeg_command].
    - [log_stream_output], the per-line classifier run by the drain threads.
    - [run_ffmpeg_transcoder] as a computation in a small exception/trace monad
      whose operating-system calls are answered by an environment [env].

    Modelling conventions.  Python text is a [string] of bytes (UTF-8 for the
    Japanese log messages); [str.lower], white space and decimal digits are
    the ASCII ones, so [int()] is modelled on ASCII text only.
    A profile dictionary is a record: keys read with [profile['k']] are plain
    fields, keys tested with ['k' in profile] are [option] fields.  The
    interpreter's length limit on int/str conversion is not modelled.
    Exceptions come out of the calls into [subprocess] and [threading] that
    the environment answers; an interrupt delivered between two such calls
    is not modelled. *)

From Stdlib Require Import ZArith List String Ascii Bool Lia Floats.
From Stdlib Require Import DecimalString DecimalPos.
Import ListNotations.
Local Open Scope string_scope.
Local Open Scope list_scope.
Local Open Scope Z_scope.

(* ================================================================== *)
(** * Python runtime *)
(* ================================================================== *)

Module Py.

(** Exceptions that can travel through the script.  [KeyboardInterrupt] derives
    from [BaseException] only; every other one is an [Exception]. *)
Inductive exn : Type :=
| KeyboardInterrupt
| TimeoutExpired
| FileNotFoundError
| PermissionError
| OSError
| RuntimeError
| ValueError
| OverflowError
| UnboundLocalError (var : string).

Definition is_Exception (e : exn) : bool :=
  match e with
  | KeyboardInterrupt => false
  | _ => true
  end.

Inductive result (A : Type) : Type :=
| Normal (a : A)
| Raised (e : exn).
Arguments Normal {A} a.
Arguments Raised {A} e.

Definition rbind {A B} (r : result A) (k : A -> result B) : result B :=
  match r with
  | Normal a => k a
  | Raised e => Raised e
  end.

(** ** Characters and strings *)

Definition code (c : ascii) : N := N_of_ascii c.

Definition in_range (lo hi : N) (c : ascii) : bool :=
  ((lo <=? code c) && (code c <=? hi))%N.

(** [str.isspace] on the ASCII range: TAB..CR, FS..US and SPACE. *)
Definition is_space (c : ascii) : bool :=
  in_range 9 13 c || in_range 28 31 c || in_range 32 32 c.

Definition is_digit (c : ascii) : bool := in_range 48 57 c.

Definition digit_value (c : ascii) : Z := Z.of_N (code c) - 48.

Definition lower_ascii (c : ascii) : ascii :=
  if in_range 65 90 c then ascii_of_N (code c + 32) else c.

(** [s.lower()] *)
Fixpoint lower (s : string) : string :=
  match s with
  | EmptyString => EmptyString
  | String c s' => String (lower_ascii c) (lower s')
  end.

(** [needle in hay] *)
Fixpoint contains (needle hay : string) : bool :=
  String.prefix needle hay ||
  match hay with
  | EmptyString => false
  | String _ hay' => contains needle hay'
  end.

Fixpoint lstrip (s : string) : string :=
  match s with
  | EmptyString => EmptyString
  | String c s' => if is_space c then lstrip s' else s
  end.

Fixpoint rstrip (s : string) : string :=
  match s with
  | EmptyString => EmptyString
  | String c s' =>
      match rstrip s' with
      | EmptyString => if is_space c then EmptyString else String c EmptyString
      | r => String c r
      end
  end.

(** [s.strip()] *)
Definition strip (s : string) : string := rstrip (lstrip s).

(** [s.replace(old, new)] for a one-character [old]. *)
Fixpoint replace (old : ascii) (new : string) (s : string) : string :=
  match s with
  | EmptyString => EmptyString
  | String c s' =>
      if Ascii.eqb c old then (new ++ replace old new s')%string
      else String c (replace old new s')
  end.

(** [sep.join(l)] *)
Definition join (sep : string) (l : list string) : string := String.concat sep l.

(** ** Integers *)

(** [str(n)] for an int. *)
Definition str (n : Z) : string := NilZero.string_of_int (Z.to_int n).

(** The digit part of an integer literal accepted by [int(s)]: decimal digits,
    single underscores allowed between two digits.  [after_digit] tells
    whether the previous character was a digit. *)
Fixpoint digits (after_digit : bool) (acc : Z) (s : string) : option Z :=
  match s with
  | EmptyString => if after_digit then Some acc else None
  | String c s' =>
      if is_digit c then digits true (10 * acc + digit_value c) s'
      else if Ascii.eqb c "_" && after_digit then digits false acc s'
      else None
  end.

(** [int(s)] for a string of ASCII characters: surrounding whitespace is
    dropped, then an optional sign, then the digits.  Python also reads the
    decimal digits and the white space of other scripts; on text with such
    characters this function is not a model of [int()]. *)
Definition int_of_str (s : string) : result Z :=
  let body := strip s in
  let parsed :=
    match body with
    | String "-" d => option_map Z.opp (digits false 0 d)
    | String "+" d => digits false 0 d
    | d => digits false 0 d
    end in
  match parsed with
  | Some n => Normal n
  | None => Raised ValueError
  end.

(** ** Numbers: an int or a float *)

Inductive number : Type :=
| PyInt (z : Z)
| PyFloat (f : float).

(** [float(n)] for an int: round to nearest even, [OverflowError] beyond the
    binary64 range. *)
Definition float_of_int (n : Z) : result float :=
  let f := SF2Prim (binary_normalize prec emax n 0 false) in
  if PrimFloat.is_infinity f then Raised OverflowError else Normal f.

(** [n * x] with [n] an int. *)
Definition mul_int (n : Z) (x : number) : result number :=
  match x with
  | PyInt m => Normal (PyInt (n * m))
  | PyFloat f =>
      rbind (float_of_int n) (fun nf => Normal (PyFloat (PrimFloat.mul nf f)))
  end.

(** The integer part of a binary64 value, sign [s], mantissa [m], exponent
    [e]: the magnitude [m * 2^e] is cut toward zero. *)
Definition trunc_sf (x : spec_float) : result Z :=
  match x with
  | S754_nan => Raised ValueError
  | S754_infinity _ => Raised OverflowError
  | S754_zero _ => Normal 0
  | S754_finite s m e =>
      let a := Z.shiftl (Z.pos m) e in
      Normal (if s then - a else a)
  end.

(** [int(f)] for a float: truncation toward zero. *)
Definition int_of_float (f : float) : result Z := trunc_sf (Prim2SF f).

(** [int(x)] *)
Definition int (x : number) : result Z :=
  match x with
  | PyInt z => Normal z
  | PyFloat f => int_of_float f
  end.

End Py.

Import Py.

Declare Scope py_scope.
Delimit Scope py_scope with py.
Notation "x <- e ;; k" := (rbind e (fun x => k))
  (at level 61, e at next level, right associativity) : py_scope.

(* ================================================================== *)
(** * Configuration *)
(* ================================================================== *)

Definition RTSP_INPUT_URL : string := "rtsp://192.168.201.72:8080/h264.sdp".

Definition MEDIAMTX_RTSP_BASE_URL : string := "rtsp://localhost:8554/live".

(** One entry of [ALL_STREAM_PROFILES].  The three [*_extra_opts] keys,
    ['preset'] and ['output_fps'] are the ones the code tests with [in]. *)
Record Profile : Type := mkProfile {
  name : string;
  resolution : string;
  video_bitrate : string;
  max_rate_multiplier : number;
  audio_bitrate : string;
  gop_size : Z;
  preset : option string;
  video_codec : string;
  audio_codec : string;
  output_fps : option Z;
  x265_extra_opts : option (list string);
  nvenc_extra_opts : option (list string);
  qsv_extra_opts : option (list string)
}.

(** 1.3 and 2.5 are the binary64 values nearest to the decimal literals. *)
Definition profile_high : Profile := {|
  name := "high";
  resolution := "1280x720";
  video_bitrate := "512k";
  max_rate_multiplier := PyFloat 0x1.4cccccccccccdp+0;
  audio_bitrate := "48k";
  gop_size := 40;
  preset := Some "superfast";
  video_codec := "libx265";
  audio_codec := "aac";
  output_fps := Some 20;
  x265_extra_opts := Some
    ["-tune"; "zerolatency";
     "-x265-params"; "aq-mode=2:aq-strength=0.8:psy-rd=1.5:rdoq=1"];
  nvenc_extra_opts := None;
  qsv_extra_opts := None
|}.

Definition profile_low : Profile := {|
  name := "low";
  resolution := "1280x720";
  video_bitrate := "192k";
  max_rate_multiplier := PyInt 2;
  audio_bitrate := "24k";
  gop_size := 60;
  preset := Some "superfast";
  video_codec := "libx265";
  audio_codec := "aac";
  output_fps := Some 15;
  x265_extra_opts := Some
    ["-tune"; "zerolatency";
     "-x265-params";
     "rc-lookahead=10:aq-mode=2:aq-strength=1.0:psy-rd=1.5:rdoq=1"];
  nvenc_extra_opts := None;
  qsv_extra_opts := None
|}.

Definition profile_quality : Profile := {|
  name := "quality";
  resolution := "1280x720";
  video_bitrate := "256k";
  max_rate_multiplier := PyFloat 0x1.4p+1;
  audio_bitrate := "32k";
  gop_size := 100;
  preset := Some "fast";
  video_codec := "libx265";
  audio_codec := "aac";
  output_fps := Some 15;
  x265_extra_opts := Some
    ["-x265-params";
     "rc-lookahead=30:aq-mode=2:aq-strength=1.0:psy-rd=2.0:rdoq=2:qpmin=10:qpmax=51:nr-intra=8:nr-inter=8"];
  nvenc_extra_opts := None;
  qsv_extra_opts := None
|}.

Definition ALL_STREAM_PROFILES : list Profile :=
  [profile_high; profile_low; profile_quality].

(* ================================================================== *)
(** * build_ffmpeg_command *)
(* ================================================================== *)

(** [cmd.extend(opts)] when the key is present, nothing otherwise. *)
Definition extend_opt (cmd : list string) (opts : option (list string))
  : list string :=
  match opts with
  | Some o => cmd ++ o
  | None => cmd
  end.

Definition is_present {A} (o : option A) : bool :=
  match o with
  | Some _ => true
  | None => false
  end.

(** Lines 105-106: the integers of the rate-control block. *)
Definition base_bitrate_k (profile : Profile) : result Z :=
  int_of_str (replace "k" EmptyString (video_bitrate profile)).

Definition max_rate_k (profile : Profile) : result Z :=
  (b <- base_bitrate_k profile ;;
   x <- mul_int b (max_rate_multiplier profile) ;;
   int x)%py.

(** One iteration of the loop of lines 86-134: [cmd] is the vector built so
    far, the result is the vector after the iteration. *)
Definition build_profile (mediamtx_base_url : string) (cmd : list string)
    (profile : Profile) : result (list string) :=
  let cmd := cmd ++ ["-map"; "0:v:0"; "-map"; "0:a:0?"] in
  let cmd := extend_opt cmd (x265_extra_opts profile) in
  let cmd :=
    if (video_codec profile =? "hevc_nvenc")%string
       && is_present (nvenc_extra_opts profile)
    then extend_opt cmd (nvenc_extra_opts profile)
    else if (video_codec profile =? "hevc_qsv")%string
            && is_present (qsv_extra_opts profile)
    then extend_opt cmd (qsv_extra_opts profile)
    else cmd in
  let cmd := cmd ++ ["-c:v"; video_codec profile] in
  let cmd :=
    match preset profile with
    | Some p => cmd ++ ["-preset"; p]
    | None => cmd
    end in
  (base <- base_bitrate_k profile ;;
   x <- mul_int base (max_rate_multiplier profile) ;;
   max_rate <- int x ;;
   let buf_size := max_rate * 2 in
   let cmd := cmd ++
     ["-b:v"; video_bitrate profile;
      "-maxrate"; (str max_rate ++ "k")%string;
      "-bufsize"; (str buf_size ++ "k")%string;
      "-s"; resolution profile;
      "-g"; str (gop_size profile);
      "-keyint_min"; str (gop_size profile);
      "-sc_threshold"; "0";
      "-pix_fmt"; "yuv420p"] in
   let cmd :=
     match output_fps profile with
     | Some r => cmd ++ ["-r"; str r]
     | None => cmd
     end in
   let cmd := cmd ++
     ["-c:a"; audio_codec profile;
      "-b:a"; audio_bitrate profile;
      "-ac"; "2";
      "-ar"; "48000";
      "-af"; "aresample=async=1000:first_pts=0"] in
   let cmd := cmd ++
     ["-f"; "rtsp"; (mediamtx_base_url ++ "/" ++ name profile)%string] in
   Normal cmd)%py.

(** The [for] loop over [profiles_to_use]; an exception leaves the loop. *)
Fixpoint build_loop (mediamtx_base_url : string) (cmd : list string)
    (profiles_to_use : list Profile) : result (list string) :=
  match profiles_to_use with
  | [] => Normal cmd
  | profile :: rest =>
      (cmd' <- build_profile mediamtx_base_url cmd profile ;;
       build_loop mediamtx_base_url cmd' rest)%py
  end.

Definition build_ffmpeg_command (input_url : string)
    (profiles_to_use : list Profile) (mediamtx_base_url : string)
  : result (list string) :=
  let cmd :=
    ["ffmpeg";
     "-i"; input_url;
     "-rtsp_transport"; "tcp";
     "-threads"; "0";
     "-nostdin";
     "-loglevel"; "info"] in
  build_loop mediamtx_base_url cmd profiles_to_use.

(* ================================================================== *)
(** * Logging and the drain threads *)
(* ================================================================== *)

Inductive level : Type := DEBUG | INFO | WARNING | ERROR.

(** One call of [logging.debug/info/warning/error]. *)
Definition log_record : Type := (level * string)%type.

(** The body of the loop of [log_stream_output] (lines 180-185). *)
Definition log_stream_line (prefix line : string) : log_record :=
  let msg := ("[" ++ prefix ++ "] " ++ strip line)%string in
  if contains "frame=" line || contains "speed=" line then
    (INFO, msg)
  else if contains "error" (lower line)
          || contains "failed" (lower line)
          || contains "no such file or directory" (lower line)
          || contains "invalid argument" (lower line) then
    (WARNING, msg)
  else
    (DEBUG, msg).

(** [log_stream_output(pipe, prefix)]: [pipe] is the sequence of lines read
    until the stream closes. *)
Definition log_stream_output (pipe : list string) (prefix : string)
  : list log_record :=
  map (log_stream_line prefix) pipe.

(* ================================================================== *)
(** * The supervisor monad *)
(* ================================================================== *)

Inductive stream : Type := STDOUT | STDERR.

(** Calls into [subprocess] and [threading] made by the main thread. *)
Inductive action : Type :=
| Popen (cmd : list string)
| ThreadStart (s : stream)
| Wait (timeout : option Z)
| Poll
| Terminate
| Kill
| IsAlive (s : stream)
| Join (s : stream) (timeout : Z).

(** What the main thread does, in order: a log record, or a call together
    with the exception it raised, if any. *)
Inductive event : Type :=
| Log (lvl : level) (msg : string)
| Call (a : action) (raised : option exn).

(** The answer of the operating system at every call site of
    [run_ffmpeg_transcoder], named by source line.  Each site is reached at
    most once in a run, so a run is determined by such a table.  An answer is
    the value returned or the exception raised out of the call; a
    [KeyboardInterrupt] delivered while the main thread sits in a call is the
    answer [Raised KeyboardInterrupt] of that call.  [exn_text e] is the
    text [str(e)] of an exception of the run, which line 211 formats; it is
    the text the operating system or the library gave the exception. *)
Record Env : Type := mkEnv {
  popen_176 : result unit;
  start_191 : result unit;
  start_192 : result unit;
  wait_195 : result Z;
  poll_201 : result (option Z);
  terminate_202 : result unit;
  wait_204 : result Z;
  kill_207 : result unit;
  wait_208 : result Z;
  poll_212 : result (option Z);
  kill_213 : result unit;
  is_alive_215 : result bool;
  join_216 : result unit;
  is_alive_217 : result bool;
  join_218 : result unit;
  exn_text : exn -> string
}.

Record Thread : Type := mkThread {
  pipe : stream;
  prefix : string;
  daemon : bool
}.

(** The local variables of [run_ffmpeg_transcoder] that outlive a statement.
    [None] is "not bound yet" for [ffmpeg_cmd] and the two threads; for
    [process] it is the value [None] assigned on line 174. *)
Record Locals : Type := mkLocals {
  ffmpeg_cmd : option (list string);
  process : option (list string);
  stdout_thread : option Thread;
  stderr_thread : option Thread
}.

Definition no_locals : Locals :=
  {| ffmpeg_cmd := None; process := None;
     stdout_thread := None; stderr_thread := None |}.

Definition set_ffmpeg_cmd (c : list string) (l : Locals) : Locals :=
  {| ffmpeg_cmd := Some c; process := process l;
     stdout_thread := stdout_thread l; stderr_thread := stderr_thread l |}.

Definition set_process (p : option (list string)) (l : Locals) : Locals :=
  {| ffmpeg_cmd := ffmpeg_cmd l; process := p;
     stdout_thread := stdout_thread l; stderr_thread := stderr_thread l |}.

Definition set_stdout_thread (t : Thread) (l : Locals) : Locals :=
  {| ffmpeg_cmd := ffmpeg_cmd l; process := process l;
     stdout_thread := Some t; stderr_thread := stderr_thread l |}.

Definition set_stderr_thread (t : Thread) (l : Locals) : Locals :=
  {| ffmpeg_cmd := ffmpeg_cmd l; process := process l;
     stdout_thread := stdout_thread l; stderr_thread := Some t |}.

(** A statement: from the locals to a result, the new locals and the events
    it produced. *)
Definition M (A : Type) : Type := Locals -> result A * Locals * list event.

Definition ret {A} (a : A) : M A := fun l => (Normal a, l, []).

(** The events [t] happened before those of [x]. *)
Definition prepend {A} (t : list event) (x : result A * Locals * list event)
  : result A * Locals * list event :=
  match x with
  | (r, l, t') => (r, l, t ++ t')
  end.

Definition bind {A B} (m : M A) (k : A -> M B) : M B :=
  fun l =>
    match m l with
    | (Normal a, l1, t1) => prepend t1 (k a l1)
    | (Raised e, l1, t1) => (Raised e, l1, t1)
    end.

Declare Scope sup_scope.
Delimit Scope sup_scope with sup.
Notation "x <- e ;; k" := (bind e (fun x => k))
  (at level 61, e at next level, right associativity) : sup_scope.
Notation "e ;; k" := (bind e (fun _ => k))
  (at level 61, right associativity) : sup_scope.

Definition lift {A} (r : result A) : M A := fun l => (r, l, []).

Definition log (lvl : level) (msg : string) : M unit :=
  fun l => (Normal tt, l, [Log lvl msg]).

(** A call answered by the environment. *)
Definition call {A} (a : action) (answer : result A) : M A :=
  fun l =>
    match answer with
    | Normal x => (Normal x, l, [Call a None])
    | Raised e => (Raised e, l, [Call a (Some e)])
    end.

Definition get {A} (field : Locals -> A) : M A := fun l => (Normal (field l), l, []).

Definition update (f : Locals -> Locals) : M unit := fun l => (Normal tt, f l, []).

(** Reading a local variable that may not be bound. *)
Definition read {A} (var : string) (field : Locals -> option A) : M A :=
  fun l =>
    match field l with
    | Some x => (Normal x, l, [])
    | None => (Raised (UnboundLocalError var), l, [])
    end.

(** [try: body  except ...: handler]: [handler e] is the clause that matches
    [e], if there is one.  An exception raised by the clause is not offered to
    the sibling clauses. *)
Definition try_except {A} (body : M A) (handler : exn -> option (M A)) : M A :=
  fun l =>
    match body l with
    | (Normal a, l1, t1) => (Normal a, l1, t1)
    | (Raised e, l1, t1) =>
        match handler e with
        | Some h => prepend t1 (h l1)
        | None => (Raised e, l1, t1)
        end
    end.

(** [try: body  finally: fin]: [fin] always runs; an exception raised by
    [fin] replaces the pending result. *)
Definition try_finally {A} (body : M A) (fin : M unit) : M A :=
  fun l =>
    match body l with
    | (r, l1, t1) =>
        match fin l1 with
        | (Normal _, l2, t2) => (r, l2, t1 ++ t2)
        | (Raised e, l2, t2) => (Raised e, l2, t1 ++ t2)
        end
    end.

Definition when (b : bool) (m : M unit) : M unit :=
  if b then m else ret tt.

(* ================================================================== *)
(** * run_ffmpeg_transcoder *)
(* ================================================================== *)

Local Open Scope sup_scope.

Definition nl : string := String "010"%char EmptyString.

(** The inner loop of lines 146-150: the first registry entry with the name. *)
Definition find_profile (registry : list Profile) (n : string) : option Profile :=
  find (fun p => (name p =? n)%string) registry.

Definition unknown_profile_msg (n : string) : string :=
  ("指定されたプロファイル '" ++ n ++ "' は見つかりませんでした。スキップします。")%string.

(** The loop of lines 144-152; [profiles_to_run] is the list built so far. *)
Fixpoint select_profiles (registry : list Profile)
    (selected_profile_names : list string) (profiles_to_run : list Profile)
  : M (list Profile) :=
  match selected_profile_names with
  | [] => ret profiles_to_run
  | n :: rest =>
      match find_profile registry n with
      | Some p => select_profiles registry rest (profiles_to_run ++ [p])
      | None =>
          log WARNING (unknown_profile_msg n) ;;
          select_profiles registry rest profiles_to_run
      end
  end.

(** The loop of lines 164-170. *)
Fixpoint log_profiles (profiles_to_run : list Profile) : M unit :=
  match profiles_to_run with
  | [] => ret tt
  | profile :: rest =>
      log INFO ("  --> 出力ストリーム '" ++ name profile ++ "': "
                ++ MEDIAMTX_RTSP_BASE_URL ++ "/" ++ name profile)%string ;;
      log INFO ("    解像度: " ++ resolution profile
                ++ ", Vビットレート: " ++ video_bitrate profile
                ++ ", Aビットレート: " ++ audio_bitrate profile)%string ;;
      match output_fps profile with
      | Some r => log INFO ("    フレームレート: " ++ str r ++ "fps")%string
      | None => ret tt
      end ;;
      match x265_extra_opts profile with
      | Some o => log INFO ("    x265追加オプション: " ++ join " " o)%string
      | None => ret tt
      end ;;
      log_profiles rest
  end.

(** [process and process.poll() is None], with the answer of [poll] at the
    given site. *)
Definition still_running (poll_answer : result (option Z)) : M bool :=
  p <- get process ;;
  match p with
  | None => ret false
  | Some _ =>
      code <- call Poll poll_answer ;;
      ret (negb (is_present code))
  end.

(** Lines 176-197, the body of the [try]. *)
Definition supervise_body (env : Env) (cmd : list string) : M unit :=
  call (Popen cmd) (popen_176 env) ;;
  update (set_process (Some cmd)) ;;
  update (set_stdout_thread (mkThread STDOUT "FFMPEG_STDOUT" false)) ;;
  update (set_stderr_thread (mkThread STDERR "FFMPEG_STDERR" false)) ;;
  update (set_stdout_thread (mkThread STDOUT "FFMPEG_STDOUT" true)) ;;
  update (set_stderr_thread (mkThread STDERR "FFMPEG_STDERR" true)) ;;
  call (ThreadStart STDOUT) (start_191 env) ;;
  call (ThreadStart STDERR) (start_192 env) ;;
  log INFO "FFmpegプロセスが実行中です。Ctrl+C で停止します。" ;;
  returncode <- call (Wait None) (wait_195 env) ;;
  log INFO ("FFmpegプロセス終了。終了コード: " ++ str returncode)%string.

(** Lines 205-208, the clause [except subprocess.TimeoutExpired]. *)
Definition on_timeout (env : Env) : M unit :=
  log WARNING
    "FFmpegプロセスがGraceful shutdownに応答しませんでした。強制終了します。" ;;
  call Kill (kill_207 env) ;;
  call (Wait None) (wait_208 env) ;;
  ret tt.

(** Lines 200-209, the clause [except KeyboardInterrupt]. *)
Definition on_keyboard_interrupt (env : Env) : M unit :=
  log INFO "Ctrl+C が検出されました。FFmpegプロセスを終了します。" ;;
  running <- still_running (poll_201 env) ;;
  when running
    (call Terminate (terminate_202 env) ;;
     try_except
       (call (Wait (Some 10)) (wait_204 env) ;; ret tt)
       (fun e =>
          match e with
          | TimeoutExpired => Some (on_timeout env)
          | _ => None
          end)) ;;
  log INFO "FFmpegプロセスが終了しました。".

(** Lines 211-213, the clause [except Exception as e]. *)
Definition on_exception (env : Env) (e : exn) : M unit :=
  log ERROR ("FFmpeg実行中に予期せぬエラーが発生しました: " ++ exn_text env e)%string ;;
  running <- still_running (poll_212 env) ;;
  when running (call Kill (kill_213 env)).

(** The two [except] clauses, in source order. *)
Definition handlers (env : Env) (e : exn) : option (M unit) :=
  match e with
  | KeyboardInterrupt => Some (on_keyboard_interrupt env)
  | _ => if is_Exception e then Some (on_exception env e) else None
  end.

(** Lines 215-218, the [finally] block. *)
Definition join_threads (env : Env) : M unit :=
  read "stdout_thread" stdout_thread ;;
  alive <- call (IsAlive STDOUT) (is_alive_215 env) ;;
  when alive (call (Join STDOUT 1) (join_216 env)) ;;
  read "stderr_thread" stderr_thread ;;
  alive <- call (IsAlive STDERR) (is_alive_217 env) ;;
  when alive (call (Join STDERR 1) (join_218 env)).

(** Lines 174-218. *)
Definition supervise (env : Env) (cmd : list string) : M unit :=
  update (set_process None) ;;
  try_finally
    (try_except (supervise_body env cmd) (handlers env))
    (join_threads env).

Definition run_ffmpeg_transcoder (env : Env)
    (selected_profile_names : list string) : M unit :=
  profiles_to_run <- select_profiles ALL_STREAM_PROFILES selected_profile_names [] ;;
  match profiles_to_run with
  | [] => log ERROR "実行するプロファイルが一つも指定されませんでした。" (* return *)
  | _ :: _ =>
      cmd <- lift (build_ffmpeg_command RTSP_INPUT_URL profiles_to_run
                     MEDIAMTX_RTSP_BASE_URL) ;;
      update (set_ffmpeg_cmd cmd) ;;
      log INFO "FFmpegトランスコーディングを開始します。" ;;
      log INFO ("入力RTSPソース: " ++ RTSP_INPUT_URL)%string ;;
      log INFO ("MediaMTXプッシュ先ベースURL: " ++ MEDIAMTX_RTSP_BASE_URL)%string ;;
      log_profiles profiles_to_run ;;
      log INFO (nl ++ "実行されるFFmpegコマンド:" ++ nl ++ join " " cmd ++ nl)%string ;;
      supervise env cmd
  end.

(** A whole run, from a fresh frame. *)
Definition run (env : Env) (selected_profile_names : list string)
  : result unit * Locals * list event :=
  run_ffmpeg_transcoder env selected_profile_names no_locals.

Definition outcome_of {A} (r : result A * Locals * list event) : result A :=
  fst (fst r).

Definition locals_of {A} (r : result A * Locals * list event) : Locals :=
  snd (fst r).

Definition trace_of {A} (r : result A * Locals * list event) : list event :=
  snd r.

(** The calls of a trace, without the log records. *)
Fixpoint calls (t : list event) : list action :=
  match t with
  | [] => []
  | Log _ _ :: t' => calls t'
  | Call a _ :: t' => a :: calls t'
  end.

Definition is_kill (a : action) : bool :=
  match a with
  | Kill => true
  | _ => false
  end.

(** The calls of the [finally] block. *)
Definition is_teardown (a : action) : bool :=
  match a with
  | IsAlive _ | Join _ _ => true
  | _ => false
  end.

(** The locals once the child and the two drain threads exist (line 190). *)
Definition started (cmd : list string) (l : Locals) : Locals :=
  {| ffmpeg_cmd := ffmpeg_cmd l; process := Some cmd;
     stdout_thread := Some (mkThread STDOUT "FFMPEG_STDOUT" true);
     stderr_thread := Some (mkThread STDERR "FFMPEG_STDERR" true) |}.

(** The events of lines 176-195 when the wait is interrupted. *)
Definition interrupted_body_trace (cmd : list string) : list event :=
  [Call (Popen cmd) None;
   Call (ThreadStart STDOUT) None;
   Call (ThreadStart STDERR) None;
   Log INFO "FFmpegプロセスが実行中です。Ctrl+C で停止します。";
   Call (Wait None) (Some KeyboardInterrupt)].

(** The record that closes the clause [except KeyboardInterrupt] (line 209). *)
Definition stopped_record : event := Log INFO "FFmpegプロセスが終了しました。".

(** The record of line 155. *)
Definition no_valid_profiles_record : event :=
  Log ERROR "実行するプロファイルが一つも指定されませんでした。".

(** Every call of the [finally] block returns. *)
Definition teardown_returns (env : Env) : Prop :=
  (exists a, is_alive_215 env = Normal a) /\ join_216 env = Normal tt
  /\ (exists a, is_alive_217 env = Normal a) /\ join_218 env = Normal tt.

(** The child is started, the drain threads are started, and Ctrl+C arrives
    while the main thread waits for a child that is still running. *)
Definition interrupted_while_running (env : Env) : Prop :=
  popen_176 env = Normal tt /\ start_191 env = Normal tt
  /\ start_192 env = Normal tt
  /\ wait_195 env = Raised KeyboardInterrupt
  /\ poll_201 env = Normal None.

(* ================================================================== *)
(** * Vocabulary of the properties *)
(* ================================================================== *)

(** ** The argument vector in closed form *)

Definition global_args (input_url : string) : list string :=
  ["ffmpeg"; "-i"; input_url; "-rtsp_transport"; "tcp"; "-threads"; "0";
   "-nostdin"; "-loglevel"; "info"].

Definition opt_list (o : option (list string)) : list string :=
  match o with
  | Some l => l
  | None => []
  end.

(** The extra-option arguments the loop body appends for a profile. *)
Definition extra_opts (p : Profile) : list string :=
  opt_list (x265_extra_opts p) ++
  (if (video_codec p =? "hevc_nvenc")%string && is_present (nvenc_extra_opts p)
   then opt_list (nvenc_extra_opts p)
   else if (video_codec p =? "hevc_qsv")%string && is_present (qsv_extra_opts p)
   then opt_list (qsv_extra_opts p)
   else []).

Definition preset_args (p : Profile) : list string :=
  match preset p with
  | Some x => ["-preset"; x]
  | None => []
  end.

Definition fps_args (p : Profile) : list string :=
  match output_fps p with
  | Some r => ["-r"; str r]
  | None => []
  end.

(** The bitrate, its cap [max_rate] and the buffer size. *)
Definition cap_args (p : Profile) (max_rate : Z) : list string :=
  ["-b:v"; video_bitrate p;
   "-maxrate"; (str max_rate ++ "k")%string;
   "-bufsize"; (str (max_rate * 2) ++ "k")%string].

Definition picture_args (p : Profile) : list string :=
  ["-s"; resolution p;
   "-g"; str (gop_size p);
   "-keyint_min"; str (gop_size p);
   "-sc_threshold"; "0";
   "-pix_fmt"; "yuv420p"].

Definition audio_args (p : Profile) : list string :=
  ["-c:a"; audio_codec p; "-b:a"; audio_bitrate p; "-ac"; "2";
   "-ar"; "48000"; "-af"; "aresample=async=1000:first_pts=0"].

(** The destination of the output of a profile. *)
Definition sink_url (base_url : string) (p : Profile) : string :=
  (base_url ++ "/" ++ name p)%string.

(** What the loop body appends before the rate-control numbers ... *)
Definition video_args (p : Profile) : list string :=
  ["-map"; "0:v:0"; "-map"; "0:a:0?"] ++ extra_opts p
  ++ ["-c:v"; video_codec p] ++ preset_args p.

(** ... and after them. *)
Definition output_args (base_url : string) (p : Profile) : list string :=
  picture_args p ++ fps_args p ++ audio_args p
  ++ ["-f"; "rtsp"; sink_url base_url p].

(** Everything the loop body appends for one profile whose cap is [max_rate]. *)
Definition block_args (base_url : string) (p : Profile) (max_rate : Z)
  : list string :=
  video_args p ++ cap_args p max_rate ++ output_args base_url p.

Definition profile_block (base_url : string) (p : Profile)
  : result (list string) :=
  (m <- max_rate_k p ;; Normal (block_args base_url p m))%py.

Fixpoint profile_blocks (base_url : string) (ps : list Profile)
  : result (list string) :=
  match ps with
  | [] => Normal []
  | p :: rest =>
      (b <- profile_block base_url p ;;
       bs <- profile_blocks base_url rest ;;
       Normal (b ++ bs))%py
  end.

(** ** Output-sink directives of an argument vector *)

(** The destinations of the directives [-f rtsp <destination>] of a vector,
    read left to right. *)
Fixpoint sinks (cmd : list string) : list string :=
  match cmd with
  | [] => []
  | a :: rest =>
      match rest with
      | b :: d :: rest' =>
          if ((a =? "-f") && (b =? "rtsp"))%string then d :: sinks rest'
          else sinks rest
      | _ => sinks rest
      end
  end.

(** The extra options emitted for the profile hold no [-f]. *)
Definition no_sink_flag (p : Profile) : Prop :=
  ~ In "-f" (extra_opts p).

(** Lines 105-106 succeed on the profile. *)
Definition rate_defined (p : Profile) : Prop :=
  exists m, max_rate_k p = Normal m.

(** The token after the first occurrence of [flag]. *)
Fixpoint flag_value (flag : string) (cmd : list string) : option string :=
  match cmd with
  | [] => None
  | a :: rest =>
      if (a =? flag)%string then hd_error rest else flag_value flag rest
  end.

(** ** Decimal text *)

(** Only decimal digits. *)
Fixpoint all_digits (s : string) : bool :=
  match s with
  | EmptyString => true
  | String c s' => is_digit c && all_digits s'
  end.

(** The number written by the digits [d] after the digits that gave [acc]. *)
Fixpoint uint_value (acc : Z) (d : Decimal.uint) : Z :=
  match d with
  | Decimal.Nil => acc
  | Decimal.D0 d' => uint_value (10 * acc + 0) d'
  | Decimal.D1 d' => uint_value (10 * acc + 1) d'
  | Decimal.D2 d' => uint_value (10 * acc + 2) d'
  | Decimal.D3 d' => uint_value (10 * acc + 3) d'
  | Decimal.D4 d' => uint_value (10 * acc + 4) d'
  | Decimal.D5 d' => uint_value (10 * acc + 5) d'
  | Decimal.D6 d' => uint_value (10 * acc + 6) d'
  | Decimal.D7 d' => uint_value (10 * acc + 7) d'
  | Decimal.D8 d' => uint_value (10 * acc + 8) d'
  | Decimal.D9 d' => uint_value (10 * acc + 9) d'
  end.

(** ** The cap as the specification words it *)

(** [floor (n * x)] in exact arithmetic, [x] taken at its exact value; no
    value for an infinite or undefined [x]. *)
Definition floor_product (n : Z) (x : number) : option Z :=
  match x with
  | PyInt m => Some (n * m)
  | PyFloat f =>
      match Prim2SF f with
      | S754_zero _ => Some 0
      | S754_finite s m e =>
          Some (Z.shiftl (n * (if s then Z.neg m else Z.pos m)) e)
      | _ => None
      end
  end.

(** [1 <= x] *)
Definition at_least_one (x : number) : bool :=
  match x with
  | PyInt m => 1 <=? m
  | PyFloat f => PrimFloat.leb 1 f
  end.

(** ** Substrings *)

Definition Substring (needle hay : string) : Prop :=
  exists pre post, hay = (pre ++ needle ++ post)%string.

(** Letter case, as the alphabet has it: the small letter of each capital
    letter; a character that is no capital letter is its own small form. *)
Definition small_letter (c : ascii) : ascii :=
  match c with
  | "A" => "a" | "B" => "b" | "C" => "c" | "D" => "d" | "E" => "e"
  | "F" => "f" | "G" => "g" | "H" => "h" | "I" => "i" | "J" => "j"
  | "K" => "k" | "L" => "l" | "M" => "m" | "N" => "n" | "O" => "o"
  | "P" => "p" | "Q" => "q" | "R" => "r" | "S" => "s" | "T" => "t"
  | "U" => "u" | "V" => "v" | "W" => "w" | "X" => "x" | "Y" => "y"
  | "Z" => "z"
  | _ => c
  end%char.

Fixpoint small_letters (s : string) : string :=
  match s with
  | EmptyString => EmptyString
  | String c s' => String (small_letter c) (small_letters s')
  end.

(** The two texts differ at most in the case of their letters. *)
Definition SameLetters (a b : string) : Prop :=
  small_letters a = small_letters b.

(** Case-insensitive matching: some part of [line] is [keyword] up to the
    case of the letters. *)
Definition SubstringNoCase (keyword line : string) : Prop :=
  exists pre w post,
    line = (pre ++ w ++ post)%string /\ SameLetters w keyword.

Definition ProgressMarker (line : string) : Prop :=
  Substring "frame=" line \/ Substring "speed=" line.

Definition ErrorKeyword (line : string) : Prop :=
  SubstringNoCase "error" line \/ SubstringNoCase "failed" line
  \/ SubstringNoCase "no such file or directory" line
  \/ SubstringNoCase "invalid argument" line.

(** ** Selection *)

(** The registry knows the name. *)
Definition known (registry : list Profile) (n : string) : bool :=
  existsb (fun p => (name p =? n)%string) registry.

(** The profiles of the known names, one per request, in request order. *)
Fixpoint resolved (registry : list Profile) (names : list string)
  : list Profile :=
  match names with
  | [] => []
  | n :: rest =>
      match find_profile registry n with
      | Some p => p :: resolved registry rest
      | None => resolved registry rest
      end
  end.

(** The warnings for the unknown names, in request order. *)
Definition warnings (registry : list Profile) (names : list string)
  : list event :=
  map (fun n => Log WARNING (unknown_profile_msg n))
      (filter (fun n => negb (known registry n)) names).

(** ** Sample inputs *)

(** 3 kbps with the multiplier [1.3333333333333333] (the binary64 value just
    below 4/3). *)
Definition profile_third : Profile := {|
  name := "third";
  resolution := "1280x720";
  video_bitrate := "3k";
  max_rate_multiplier := PyFloat 0x1.5555555555555p+0;
  audio_bitrate := "48k";
  gop_size := 40;
  preset := None;
  video_codec := "libx265";
  audio_codec := "aac";
  output_fps := None;
  x265_extra_opts := None;
  nvenc_extra_opts := None;
  qsv_extra_opts := None
|}.

(** An NVENC profile that still carries the x265 options of the profile it
    was copied from. *)
Definition profile_nvenc : Profile := {|
  name := "hw";
  resolution := "1280x720";
  video_bitrate := "512k";
  max_rate_multiplier := PyInt 2;
  audio_bitrate := "48k";
  gop_size := 40;
  preset := None;
  video_codec := "hevc_nvenc";
  audio_codec := "aac";
  output_fps := None;
  x265_extra_opts := Some ["-tune"; "zerolatency"];
  nvenc_extra_opts := Some ["-rc"; "vbr"];
  qsv_extra_opts := None
|}.

(** A plain H.264 profile with x265 options. *)
Definition profile_x264 : Profile := {|
  name := "avc";
  resolution := "1280x720";
  video_bitrate := "512k";
  max_rate_multiplier := PyInt 2;
  audio_bitrate := "48k";
  gop_size := 40;
  preset := None;
  video_codec := "libx264";
  audio_codec := "aac";
  output_fps := None;
  x265_extra_opts := Some ["-tune"; "zerolatency"];
  nvenc_extra_opts := None;
  qsv_extra_opts := None
|}.

(** [str(e)] on Windows for the two errors of a spawn; the other exceptions
    are taken without arguments, whose text is empty. *)
Definition windows_text (e : exn) : string :=
  match e with
  | FileNotFoundError =>
      "[WinError 2] The system cannot find the file specified"
  | PermissionError => "[WinError 5] Access is denied"
  | _ => EmptyString
  end.

(** The child runs to a normal exit with code 0; nothing is alive at the end. *)
Definition quiet_env : Env := {|
  popen_176 := Normal tt; start_191 := Normal tt; start_192 := Normal tt;
  wait_195 := Normal 0;
  poll_201 := Normal None; terminate_202 := Normal tt; wait_204 := Normal 0;
  kill_207 := Normal tt; wait_208 := Normal 0;
  poll_212 := Normal None; kill_213 := Normal tt;
  is_alive_215 := Normal false; join_216 := Normal tt;
  is_alive_217 := Normal false; join_218 := Normal tt;
  exn_text := windows_text |}.

Definition with_popen (a : result unit) (env : Env) : Env :=
  mkEnv a (start_191 env) (start_192 env) (wait_195 env) (poll_201 env)
    (terminate_202 env) (wait_204 env) (kill_207 env) (wait_208 env)
    (poll_212 env) (kill_213 env) (is_alive_215 env) (join_216 env)
    (is_alive_217 env) (join_218 env) (exn_text env).

Definition with_wait_195 (a : result Z) (env : Env) : Env :=
  mkEnv (popen_176 env) (start_191 env) (start_192 env) a (poll_201 env)
    (terminate_202 env) (wait_204 env) (kill_207 env) (wait_208 env)
    (poll_212 env) (kill_213 env) (is_alive_215 env) (join_216 env)
    (is_alive_217 env) (join_218 env) (exn_text env).

Definition with_wait_204 (a : result Z) (env : Env) : Env :=
  mkEnv (popen_176 env) (start_191 env) (start_192 env) (wait_195 env)
    (poll_201 env) (terminate_202 env) a (kill_207 env) (wait_208 env)
    (poll_212 env) (kill_213 env) (is_alive_215 env) (join_216 env)
    (is_alive_217 env) (join_218 env) (exn_text env).

(** [ffmpeg] is not on the path. *)
Definition env_not_found : Env := with_popen (Raised FileNotFoundError) quiet_env.

(** Ctrl+C while the child runs; the child exits with code 255 within the
    timeout. *)
Definition env_graceful : Env :=
  with_wait_195 (Raised KeyboardInterrupt) (with_wait_204 (Normal 255) quiet_env).

(** Ctrl+C while the child runs; the child ignores the request. *)
Definition env_stubborn : Env :=
  with_wait_195 (Raised KeyboardInterrupt)
    (with_wait_204 (Raised TimeoutExpired) quiet_env).

(** Ctrl+C while the child runs and once more during the graceful wait. *)
Definition env_twice : Env :=
  with_wait_195 (Raised KeyboardInterrupt)
    (with_wait_204 (Raised KeyboardInterrupt) quiet_env).

(** ** Further vocabulary *)

(** A byte below 128: an ASCII character of the text. *)
Definition is_ascii (c : ascii) : bool := (code c <? 128)%N.

(** The ASCII characters a video bitrate may be written with if line 105 is
    to succeed: digits, [k], [_], a sign, white space. *)
Definition bitrate_char (c : ascii) : bool :=
  is_digit c || is_space c || Ascii.eqb c "k" || Ascii.eqb c "_"
  || Ascii.eqb c "+" || Ascii.eqb c "-".

(** A bitrate in megabits. *)
Definition profile_megabit : Profile := {|
  name := "hd";
  resolution := "1920x1080";
  video_bitrate := "2M";
  max_rate_multiplier := PyInt 2;
  audio_bitrate := "48k";
  gop_size := 40;
  preset := None;
  video_codec := "libx265";
  audio_codec := "aac";
  output_fps := None;
  x265_extra_opts := None;
  nvenc_extra_opts := None;
  qsv_extra_opts := None
|}.

(** ** The logging configuration (lines 9-14) *)

(** [logging.DEBUG], [logging.INFO], [logging.WARNING], [logging.ERROR]. *)
Definition levelno (lvl : level) : Z :=
  match lvl with
  | DEBUG => 10
  | INFO => 20
  | WARNING => 30
  | ERROR => 40
  end.

(** [logging.basicConfig(level=logging.INFO, ...)]: the level of the root
    logger. *)
Definition root_level : level := INFO.

(** [isEnabledFor]: a record reaches the two handlers when its level is not
    below the level of the root logger. *)
Definition is_enabled (lvl : level) : bool := levelno root_level <=? levelno lvl.

(** The records that reach the log file and the console. *)
Definition emitted (records : list log_record) : list log_record :=
  filter (fun r => is_enabled (fst r)) records.

(** ** Further vocabulary for runs *)

(** The spawn and both thread starts return. *)
Definition child_started (env : Env) : Prop :=
  popen_176 env = Normal tt /\ start_191 env = Normal tt
  /\ start_192 env = Normal tt.

(** After a successful spawn, [e] is raised out of the rest of the [try]
    body: by the first thread start, by the second, or by the wait. *)
Definition body_raises (env : Env) (e : exn) : Prop :=
  start_191 env = Raised e
  \/ (start_191 env = Normal tt /\ start_192 env = Raised e)
  \/ (start_191 env = Normal tt /\ start_192 env = Normal tt
      /\ wait_195 env = Raised e).

Definition is_spawn (a : action) : bool :=
  match a with
  | Popen _ => true
  | _ => false
  end.

(** Thread starts and the wait of line 195. *)
Definition is_startup (a : action) : bool :=
  match a with
  | ThreadStart _ | Wait None => true
  | _ => false
  end.

(** [terminate] and [kill]. *)
Definition is_signal (a : action) : bool :=
  match a with
  | Terminate | Kill => true
  | _ => false
  end.

(** A test on actions as a test on events; log records pass. *)
Definition on_calls (P : action -> bool) (e : event) : bool :=
  match e with
  | Call a _ => P a
  | Log _ _ => true
  end.

(** The event is a call, or a record that the root logger lets through. *)
Definition audible (e : event) : bool :=
  match e with
  | Log lvl _ => is_enabled lvl
  | Call _ _ => true
  end.

(** Every event of the statement passes the test, from any locals. *)
Definition Always {A} (P : event -> bool) (m : M A) : Prop :=
  forall l, forallb P (trace_of (m l)) = true.

(** The statement leaves the locals as they are. *)
Definition Keeps {A} (m : M A) : Prop :=
  forall l, locals_of (m l) = l.

(** The events of the [except] clause that handles the way the body ended,
    if it ended with an exception. *)
Definition handler_trace (env : Env) (b : result unit * Locals * list event)
  : list event :=
  match outcome_of b with
  | Normal _ => []
  | Raised e =>
      match handlers env e with
      | Some h => trace_of (h (locals_of b))
      | None => []
      end
  end.

(** A call of the [finally] block; no log record. *)
Definition is_teardown_call (e : event) : bool :=
  match e with
  | Call a _ => is_teardown a
  | Log _ _ => false
  end.

(** What can follow the spawn in the [try] body: a thread start, the wait of
    line 195, a record at INFO. *)
Definition is_startup_event (e : event) : bool :=
  match e with
  | Call a _ => is_startup a
  | Log INFO _ => true
  | Log _ _ => false
  end.

(** The event is no warning about a skipped name: it is no WARNING record,
    or it is the record of line 206. *)
Definition no_skip_warning (e : event) : bool :=
  match e with
  | Log WARNING msg =>
      (msg =? "FFmpegプロセスがGraceful shutdownに応答しませんでした。強制終了します。")%string
  | _ => true
  end.

(** The records of lines 165-170 for one profile. *)
Definition profile_records (p : Profile) : list event :=
  [Log INFO ("  --> 出力ストリーム '" ++ name p ++ "': "
             ++ MEDIAMTX_RTSP_BASE_URL ++ "/" ++ name p)%string;
   Log INFO ("    解像度: " ++ resolution p
             ++ ", Vビットレート: " ++ video_bitrate p
             ++ ", Aビットレート: " ++ audio_bitrate p)%string]
  ++ match output_fps p with
     | Some r => [Log INFO ("    フレームレート: " ++ str r ++ "fps")%string]
     | None => []
     end
  ++ match x265_extra_opts p with
     | Some o => [Log INFO ("    x265追加オプション: " ++ join " " o)%string]
     | None => []
     end.

(** The records of lines 160-172, logged between the selection and the
    [try] statement, for the profiles [ps] and their command [cmd]. *)
Definition preamble (ps : list Profile) (cmd : list string) : list event :=
  [Log INFO "FFmpegトランスコーディングを開始します。";
   Log INFO ("入力RTSPソース: " ++ RTSP_INPUT_URL)%string;
   Log INFO ("MediaMTXプッシュ先ベースURL: " ++ MEDIAMTX_RTSP_BASE_URL)%string]
  ++ flat_map profile_records ps
  ++ [Log INFO (nl ++ "実行されるFFmpegコマンド:" ++ nl ++ join " " cmd
                ++ nl)%string].

Definition with_start_192 (a : result unit) (env : Env) : Env :=
  mkEnv (popen_176 env) (start_191 env) a (wait_195 env) (poll_201 env)
    (terminate_202 env) (wait_204 env) (kill_207 env) (wait_208 env)
    (poll_212 env) (kill_213 env) (is_alive_215 env) (join_216 env)
    (is_alive_217 env) (join_218 env) (exn_text env).

Definition with_poll_201 (a : result (option Z)) (env : Env) : Env :=
  mkEnv (popen_176 env) (start_191 env) (start_192 env) (wait_195 env) a
    (terminate_202 env) (wait_204 env) (kill_207 env) (wait_208 env)
    (poll_212 env) (kill_213 env) (is_alive_215 env) (join_216 env)
    (is_alive_217 env) (join_218 env) (exn_text env).

(** The child exits by itself with code 3. *)
Definition env_exit_3 : Env := with_wait_195 (Normal 3) quiet_env.

(** The second drain thread cannot be started. *)
Definition env_no_thread : Env := with_start_192 (Raised RuntimeError) quiet_env.

(** Ctrl+C when the child has already exited with code 255. *)
Definition env_gone : Env :=
  with_wait_195 (Raised KeyboardInterrupt)
    (with_poll_201 (Normal (Some 255)) quiet_env).

(** Ctrl+C during the spawn. *)
Definition env_early_interrupt : Env :=
  with_popen (Raised KeyboardInterrupt) quiet_env.

(* ================================================================== *)
(** * The command compiler *)
(* ================================================================== *)

Section Compiler.

Variable base_url : string.

(** The loop body appends the block of the profile to the vector so far. *)
Lemma build_profile_closed (cmd : list string) (p : Profile) :
  build_profile base_url cmd p
  = (b <- profile_block base_url p ;; Normal (cmd ++ b))%py.
Proof.
  unfold build_profile, profile_block, max_rate_k, block_args, video_args,
    output_args, extra_opts, preset_args, fps_args, cap_args, picture_args,
    audio_args, sink_url, extend_opt.
  destruct (base_bitrate_k p) as [b|e]; simpl; [|reflexivity].
  destruct (mul_int b (max_rate_multiplier p)) as [x|e]; simpl; [|reflexivity].
  destruct (int x) as [m|e]; simpl; [|reflexivity].
  destruct (x265_extra_opts p), (nvenc_extra_opts p), (qsv_extra_opts p),
    (preset p), (output_fps p),
    (video_codec p =? "hevc_nvenc")%string, (video_codec p =? "hevc_qsv")%string;
    simpl; repeat rewrite <- app_assoc; simpl; rewrite ?app_nil_r;
    reflexivity.
Qed.

Lemma build_loop_closed (ps : list Profile) : forall cmd,
  build_loop base_url cmd ps
  = (bs <- profile_blocks base_url ps ;; Normal (cmd ++ bs))%py.
Proof.
  induction ps as [|p ps IH]; intros cmd; simpl.
  - now rewrite app_nil_r.
  - rewrite build_profile_closed.
    destruct (profile_block base_url p) as [b|e]; simpl; [|reflexivity].
    rewrite IH.
    destruct (profile_blocks base_url ps) as [bs|e]; simpl; [|reflexivity].
    now rewrite app_assoc.
Qed.

Lemma build_ffmpeg_command_closed (input_url : string) (ps : list Profile) :
  build_ffmpeg_command input_url ps base_url
  = (bs <- profile_blocks base_url ps ;; Normal (global_args input_url ++ bs))%py.
Proof. unfold build_ffmpeg_command. now rewrite build_loop_closed. Qed.

End Compiler.

(** ** Scanning for sinks *)

Lemma sinks_skip (a : string) (l : list string) :
  (a =? "-f")%string = false -> sinks (a :: l) = sinks l.
Proof.
  intros H. destruct l as [|b [|d l]]; simpl; try reflexivity.
  now rewrite H.
Qed.

Lemma sinks_flag (x b : string) (l : list string) :
  (b =? "rtsp")%string = false -> sinks (x :: b :: l) = sinks (b :: l).
Proof.
  intros H. destruct l as [|d l]; simpl; try reflexivity.
  now rewrite H, andb_false_r.
Qed.

Lemma sinks_sink (d : string) (l : list string) :
  sinks ("-f" :: "rtsp" :: d :: l) = d :: sinks l.
Proof. reflexivity. Qed.

Lemma sinks_app_no_flag (l r : list string) :
  ~ In "-f" l -> sinks (l ++ r) = sinks r.
Proof.
  induction l as [|a l IH]; intros H; simpl app; [reflexivity|].
  rewrite sinks_skip.
  - apply IH. intros Hin. apply H. now right.
  - apply String.eqb_neq. intros ->. apply H. now left.
Qed.

Ltac scan :=
  repeat first
    [ rewrite sinks_sink
    | rewrite sinks_skip by reflexivity
    | rewrite sinks_flag by reflexivity ].

Lemma sinks_global_args (input_url : string) (l : list string) :
  sinks (global_args input_url ++ "-map" :: l) = sinks ("-map" :: l).
Proof. unfold global_args. simpl app. now scan. Qed.

Lemma sinks_global_args_only (input_url : string) :
  sinks (global_args input_url) = [].
Proof. unfold global_args. now scan. Qed.

(** The block of a profile holds one sink, its own, when the extra options
    hold no [-f]. *)
Lemma sinks_block (base_url : string) (p : Profile) (m : Z) (l : list string) :
  no_sink_flag p ->
  sinks (block_args base_url p m ++ l) = sink_url base_url p :: sinks l.
Proof.
  intros Hp. unfold block_args, video_args, output_args.
  repeat rewrite <- app_assoc. simpl app. scan.
  rewrite sinks_app_no_flag by exact Hp.
  unfold preset_args, fps_args, cap_args, picture_args, audio_args.
  destruct (preset p), (output_fps p); simpl app; now scan.
Qed.

Lemma sinks_blocks (base_url : string) (ps : list Profile) :
  Forall no_sink_flag ps ->
  forall bs, profile_blocks base_url ps = Normal bs ->
  sinks bs = map (sink_url base_url) ps.
Proof.
  induction 1 as [|p ps Hp _ IH]; intros bs; cbn [profile_blocks map].
  - now intros [= <-].
  - unfold profile_block.
    destruct (max_rate_k p) as [m|e]; cbn [rbind]; [|discriminate].
    destruct (profile_blocks base_url ps) as [bs'|e]; cbn [rbind]; [|discriminate].
    intros H. replace bs with (block_args base_url p m ++ bs') by congruence.
    rewrite sinks_block by assumption.
    f_equal. now apply IH.
Qed.

Lemma sinks_after_global_args (input_url base_url : string) (ps : list Profile) :
  forall bs, profile_blocks base_url ps = Normal bs ->
  sinks (global_args input_url ++ bs) = sinks bs.
Proof.
  destruct ps as [|p ps]; cbn [profile_blocks]; intros bs.
  - intros [= <-]. rewrite app_nil_r. apply sinks_global_args_only.
  - unfold profile_block.
    destruct (max_rate_k p) as [m|e]; cbn [rbind]; [|discriminate].
    destruct (profile_blocks base_url ps) as [bs'|e]; cbn [rbind]; [|discriminate].
    intros H. replace bs with (block_args base_url p m ++ bs') by congruence.
    unfold block_args, video_args.
    repeat rewrite <- app_assoc. simpl app. apply sinks_global_args.
Qed.

Lemma profile_blocks_defined (base_url : string) (ps : list Profile) :
  Forall rate_defined ps -> exists bs, profile_blocks base_url ps = Normal bs.
Proof.
  induction 1 as [|p ps [m Hm] _ [bs IH]]; simpl.
  - now exists [].
  - unfold profile_block. rewrite Hm, IH. simpl. eauto.
Qed.

(** Compiled vectors carry the sinks of their profiles, in order. *)
Lemma sinks_of_compiled (input_url base_url : string) (ps : list Profile)
    (cmd : list string) :
  Forall no_sink_flag ps ->
  build_ffmpeg_command input_url ps base_url = Normal cmd ->
  sinks cmd = map (sink_url base_url) ps.
Proof.
  intros Hps. rewrite build_ffmpeg_command_closed.
  destruct (profile_blocks base_url ps) as [bs|e] eqn:Hbs; cbn [rbind];
    [|discriminate].
  intros H. replace cmd with (global_args input_url ++ bs) by congruence.
  rewrite (sinks_after_global_args _ _ _ _ Hbs).
  now apply sinks_blocks.
Qed.

Lemma registry_no_sink_flag : Forall no_sink_flag ALL_STREAM_PROFILES.
Proof.
  repeat constructor; unfold no_sink_flag; simpl;
    intuition discriminate.
Qed.

Lemma registry_rate_defined : Forall rate_defined ALL_STREAM_PROFILES.
Proof.
  repeat constructor; eexists; vm_compute; reflexivity.
Qed.

(** A property of every registry entry holds of every selection from the
    registry. *)
Lemma selection_from_registry (P : Profile -> Prop) (ps : list Profile) :
  Forall P ALL_STREAM_PROFILES ->
  Forall (fun p => In p ALL_STREAM_PROFILES) ps ->
  Forall P ps.
Proof.
  rewrite !Forall_forall. intros Hreg Hps p Hp. apply Hreg, Hps, Hp.
Qed.

(** C1.  For every selection of profiles of the registry, of any length, in
    any order and with repetitions, and for every input and base URL, the
    command is compiled and its output-sink directives [-f rtsp destination]
    are, read left to right, one per selected profile in the order of the
    selection, each with the destination [base_url/name]. *)
Theorem compile_one_sink_per_profile (input_url base_url : string)
    (ps : list Profile) :
  Forall (fun p => In p ALL_STREAM_PROFILES) ps ->
  exists cmd,
    build_ffmpeg_command input_url ps base_url = Normal cmd
    /\ sinks cmd = map (fun p => (base_url ++ "/" ++ name p)%string) ps
    /\ List.length (sinks cmd) = List.length ps.
Proof.
  intros Hps.
  pose proof (selection_from_registry _ ps registry_no_sink_flag Hps) as Hflag.
  pose proof (selection_from_registry _ ps registry_rate_defined Hps) as Hrate.
  destruct (profile_blocks_defined base_url ps Hrate) as [bs Hbs].
  exists (global_args input_url ++ bs).
  assert (Hcmd : build_ffmpeg_command input_url ps base_url
                 = Normal (global_args input_url ++ bs))
    by (rewrite build_ffmpeg_command_closed, Hbs; reflexivity).
  split; [exact Hcmd|].
  pose proof (sinks_of_compiled _ _ _ _ Hflag Hcmd) as Hs.
  split; [exact Hs|]. rewrite Hs. apply length_map.
Qed.

Lemma compile_one_sink_per_profile_witness :
  exists cmd,
    build_ffmpeg_command RTSP_INPUT_URL
      [profile_quality; profile_high; profile_quality] MEDIAMTX_RTSP_BASE_URL
    = Normal cmd
    /\ sinks cmd
       = map (fun p => (MEDIAMTX_RTSP_BASE_URL ++ "/" ++ name p)%string)
           [profile_quality; profile_high; profile_quality]
    /\ List.length (sinks cmd)
       = List.length [profile_quality; profile_high; profile_quality].
Proof.
  apply (compile_one_sink_per_profile RTSP_INPUT_URL MEDIAMTX_RTSP_BASE_URL
           [profile_quality; profile_high; profile_quality]).
  repeat constructor; simpl; tauto.
Defined.

(** ** Decimal text *)

Lemma digits_of_uint (d : Decimal.uint) : forall b acc,
  d <> Decimal.Nil \/ b = true ->
  digits b acc (NilEmpty.string_of_uint d) = Some (uint_value acc d).
Proof.
  induction d; intros b acc H; cbn [NilEmpty.string_of_uint digits uint_value];
    try (change (is_digit _) with true; cbv iota; unfold digit_value; cbn [code N_of_ascii];
         apply IHd; now right).
  destruct H as [H| ->]; [congruence|reflexivity].
Qed.

Lemma uint_value_acc (d : Decimal.uint) : forall acc,
  Z.pos (Pos.of_uint_acc d acc) = uint_value (Z.pos acc) d.
Proof.
  induction d; intros acc; cbn [Pos.of_uint_acc uint_value];
    try reflexivity; rewrite IHd; f_equal; lia.
Qed.

Lemma uint_value_of_uint (d : Decimal.uint) :
  Z.of_N (Pos.of_uint d) = uint_value 0 d.
Proof.
  induction d; cbn [Pos.of_uint uint_value]; try reflexivity;
    try (rewrite IHd; reflexivity);
    cbn [Z.of_N]; rewrite uint_value_acc; reflexivity.
Qed.

Lemma all_digits_of_uint (d : Decimal.uint) :
  all_digits (NilEmpty.string_of_uint d) = true.
Proof. induction d; cbn; auto. Qed.

Lemma rstrip_digits (s : string) : all_digits s = true -> rstrip s = s.
Proof.
  induction s as [|c s IH]; cbn [all_digits rstrip]; [reflexivity|].
  intros H. apply andb_true_iff in H. destruct H as [Hc Hs].
  rewrite (IH Hs). destruct s; [|reflexivity].
  assert (Hsp : is_space c = false).
  { revert Hc. unfold is_digit, is_space, in_range.
    rewrite !andb_true_iff, !N.leb_le. intros [H1 H2].
    repeat (apply orb_false_iff; split); apply andb_false_iff;
      rewrite !N.leb_gt; lia. }
  now rewrite Hsp.
Qed.


Lemma digit_not_space (c : ascii) : is_digit c = true -> is_space c = false.
Proof.
  unfold is_digit, is_space, in_range.
  rewrite !andb_true_iff, !N.leb_le. intros [H1 H2].
  repeat (apply orb_false_iff; split); apply andb_false_iff;
    rewrite !N.leb_gt; lia.
Qed.

Lemma strip_digits (s : string) : all_digits s = true -> strip s = s.
Proof.
  intros H. unfold strip.
  assert (Hl : lstrip s = s).
  { destruct s as [|c s]; [reflexivity|]. cbn [all_digits] in H.
    apply andb_true_iff in H. destruct H as [Hc _].
    cbn [lstrip]. now rewrite (digit_not_space c Hc). }
  rewrite Hl. now apply rstrip_digits.
Qed.

Lemma replace_k_digits (s : string) :
  all_digits s = true -> replace "k" EmptyString (s ++ "k") = s.
Proof.
  induction s as [|c s IH]; cbn [all_digits append replace]; [reflexivity|].
  intros H. apply andb_true_iff in H. destruct H as [Hc Hs].
  destruct (Ascii.eqb_spec c "k") as [->|_]; [discriminate Hc|].
  now rewrite (IH Hs).
Qed.

Lemma int_of_str_digits (s : string) :
  all_digits s = true ->
  int_of_str s
  = match digits false 0 s with Some n => Normal n | None => Raised ValueError end.
Proof.
  intros H. unfold int_of_str. rewrite (strip_digits s H).
  destruct s as [|c s]; [reflexivity|].
  cbn [all_digits] in H. apply andb_true_iff in H. destruct H as [Hc _].
  destruct c as [[] [] [] [] [] [] [] []]; try discriminate Hc; reflexivity.
Qed.

(** [int((str(n) + 'k').replace('k', ''))] is [n]: the text of a bitrate of
    [n] kbps parses back to [n]. *)
Lemma base_bitrate_of_text (p : Profile) (n : Z) :
  0 <= n ->
  video_bitrate p = (str n ++ "k")%string ->
  base_bitrate_k p = Normal n.
Proof.
  intros Hn Hv. unfold base_bitrate_k. rewrite Hv.
  destruct n as [|q|q]; [reflexivity| |lia].
  unfold str. cbn [Z.to_int NilZero.string_of_int].
  unfold NilZero.string_of_uint.
  pose proof (DecimalPos.Unsigned.to_uint_nonnil q) as Hnil.
  destruct (Pos.to_uint q) eqn:Hd; try congruence; rewrite <- Hd;
    rewrite replace_k_digits by apply all_digits_of_uint;
    rewrite int_of_str_digits by apply all_digits_of_uint;
    (rewrite digits_of_uint by (left; congruence));
    rewrite <- uint_value_of_uint, DecimalPos.Unsigned.of_to; reflexivity.
Qed.

(** ** The rate-control numbers *)

Lemma build_single (input_url base_url : string) (p : Profile) :
  build_ffmpeg_command input_url [p] base_url
  = (m <- max_rate_k p ;;
     Normal (global_args input_url ++ block_args base_url p m))%py.
Proof.
  rewrite build_ffmpeg_command_closed. cbn [profile_blocks].
  unfold profile_block.
  destruct (max_rate_k p) as [m|e]; cbn [rbind]; [|reflexivity].
  now rewrite app_nil_r.
Qed.

Lemma block_args_cap (base_url : string) (p : Profile) (m : Z) :
  block_args base_url p m
  = video_args p
    ++ ["-b:v"; video_bitrate p;
        "-maxrate"; (str m ++ "k")%string;
        "-bufsize"; (str (2 * m) ++ "k")%string]
    ++ output_args base_url p.
Proof. unfold block_args, cap_args. now rewrite (Z.mul_comm m 2). Qed.

(** The primitive product is the IEEE 754 one: round to nearest, ties to
    even. *)
Lemma int_of_float_mul (x y : float) :
  int_of_float (x * y) = trunc_sf (SF64mul (Prim2SF x) (Prim2SF y)).
Proof. unfold int_of_float. now rewrite mul_spec. Qed.

(** C2, as amended.  For a profile whose video bitrate parses as [b >= 0]
    kbps and whose multiplier is at least 1: with an int multiplier [m] the
    value of [-maxrate] is [b * m], which is [floor (b * m)], with suffix [k];
    with a float multiplier [f] it is the integer part of the binary64
    product of [float(b)] and [f] (rounded to nearest), with suffix [k]; in
    both cases the value of [-bufsize] is twice the cap, with suffix [k]. *)
Theorem maxrate_and_bufsize (input_url base_url : string) (p : Profile) (b : Z) :
  base_bitrate_k p = Normal b ->
  0 <= b ->
  at_least_one (max_rate_multiplier p) = true ->
  (forall m, max_rate_multiplier p = PyInt m ->
     floor_product b (max_rate_multiplier p) = Some (b * m)
     /\ build_ffmpeg_command input_url [p] base_url
        = Normal (global_args input_url ++ video_args p
                  ++ ["-b:v"; video_bitrate p;
                      "-maxrate"; (str (b * m) ++ "k")%string;
                      "-bufsize"; (str (2 * (b * m)) ++ "k")%string]
                  ++ output_args base_url p))
  /\ (forall f bf cap, max_rate_multiplier p = PyFloat f ->
        float_of_int b = Normal bf ->
        trunc_sf (SF64mul (Prim2SF bf) (Prim2SF f)) = Normal cap ->
        build_ffmpeg_command input_url [p] base_url
        = Normal (global_args input_url ++ video_args p
                  ++ ["-b:v"; video_bitrate p;
                      "-maxrate"; (str cap ++ "k")%string;
                      "-bufsize"; (str (2 * cap) ++ "k")%string]
                  ++ output_args base_url p)).
Proof.
  intros Hb _ _. split.
  - intros m Hm. rewrite Hm. split; [reflexivity|].
    rewrite build_single. unfold max_rate_k. rewrite Hb, Hm.
    cbn [rbind mul_int int].
    now rewrite block_args_cap.
  - intros f bf cap Hf Hbf Hcap.
    rewrite build_single. unfold max_rate_k. rewrite Hb, Hf.
    cbn [rbind mul_int]. rewrite Hbf. cbn [rbind int].
    rewrite int_of_float_mul, Hcap. cbn [rbind].
    now rewrite block_args_cap.
Qed.

Lemma maxrate_and_bufsize_witness :
  (forall m, max_rate_multiplier profile_low = PyInt m ->
     floor_product 192 (max_rate_multiplier profile_low) = Some (192 * m)
     /\ build_ffmpeg_command RTSP_INPUT_URL [profile_low] MEDIAMTX_RTSP_BASE_URL
        = Normal (global_args RTSP_INPUT_URL ++ video_args profile_low
                  ++ ["-b:v"; video_bitrate profile_low;
                      "-maxrate"; (str (192 * m) ++ "k")%string;
                      "-bufsize"; (str (2 * (192 * m)) ++ "k")%string]
                  ++ output_args MEDIAMTX_RTSP_BASE_URL profile_low))
  /\ (forall f bf cap, max_rate_multiplier profile_low = PyFloat f ->
        float_of_int 192 = Normal bf ->
        trunc_sf (SF64mul (Prim2SF bf) (Prim2SF f)) = Normal cap ->
        build_ffmpeg_command RTSP_INPUT_URL [profile_low] MEDIAMTX_RTSP_BASE_URL
        = Normal (global_args RTSP_INPUT_URL ++ video_args profile_low
                  ++ ["-b:v"; video_bitrate profile_low;
                      "-maxrate"; (str cap ++ "k")%string;
                      "-bufsize"; (str (2 * cap) ++ "k")%string]
                  ++ output_args MEDIAMTX_RTSP_BASE_URL profile_low)).
Proof.
  apply (maxrate_and_bufsize RTSP_INPUT_URL MEDIAMTX_RTSP_BASE_URL
           profile_low 192).
  - reflexivity.
  - lia.
  - reflexivity.
Defined.

(** In the registry the cap is the floor of the exact product: 665, 384 and
    640 kbps. *)
Lemma registry_caps_are_floors :
  Forall (fun p => exists b m,
            base_bitrate_k p = Normal b
            /\ max_rate_k p = Normal m
            /\ floor_product b (max_rate_multiplier p) = Some m)
         ALL_STREAM_PROFILES.
Proof.
  repeat constructor.
  - exists 512, 665. now vm_compute.
  - exists 192, 384. now vm_compute.
  - exists 256, 640. now vm_compute.
Qed.

(** C2 as stated fails: for 3 kbps and the multiplier 1.3333333333333333 the
    floor of the exact product is 3, since the multiplier is below 4/3, but
    the binary64 product rounds to 4.0 and the vector carries [-maxrate 4k]
    and [-bufsize 8k]. *)
Lemma maxrate_above_floor :
  base_bitrate_k profile_third = Normal 3
  /\ at_least_one (max_rate_multiplier profile_third) = true
  /\ floor_product 3 (max_rate_multiplier profile_third) = Some 3
  /\ exists cmd,
       build_ffmpeg_command RTSP_INPUT_URL [profile_third]
         MEDIAMTX_RTSP_BASE_URL = Normal cmd
       /\ flag_value "-maxrate" cmd = Some "4k"
       /\ flag_value "-bufsize" cmd = Some "8k"
       /\ flag_value "-maxrate" cmd <> Some (str 3 ++ "k")%string.
Proof.
  split; [reflexivity|]. split; [reflexivity|]. split; [reflexivity|].
  eexists. split; [reflexivity|]. split; [reflexivity|].
  split; [reflexivity|]. vm_compute. discriminate.
Qed.

(** ** Extra options *)

(** C3 fails on the code.  The x265 options are appended whatever the video
    codec is: an NVENC profile that has both lists gets both, and a libx264
    profile gets the x265 options. *)
Theorem x265_opts_ignore_codec :
  build_ffmpeg_command RTSP_INPUT_URL [profile_nvenc] MEDIAMTX_RTSP_BASE_URL
  = Normal (global_args RTSP_INPUT_URL
            ++ ["-map"; "0:v:0"; "-map"; "0:a:0?";
                "-tune"; "zerolatency"; "-rc"; "vbr";
                "-c:v"; "hevc_nvenc"]
            ++ cap_args profile_nvenc 1024
            ++ output_args MEDIAMTX_RTSP_BASE_URL profile_nvenc)
  /\ build_ffmpeg_command RTSP_INPUT_URL [profile_x264] MEDIAMTX_RTSP_BASE_URL
     = Normal (global_args RTSP_INPUT_URL
               ++ ["-map"; "0:v:0"; "-map"; "0:a:0?";
                   "-tune"; "zerolatency";
                   "-c:v"; "libx264"]
               ++ cap_args profile_x264 1024
               ++ output_args MEDIAMTX_RTSP_BASE_URL profile_x264).
Proof. split; reflexivity. Qed.

(** The two hardware sets do follow the codec. *)
Lemma hardware_opts_follow_codec (p : Profile) :
  video_codec p <> "hevc_nvenc" -> video_codec p <> "hevc_qsv" ->
  extra_opts p = opt_list (x265_extra_opts p).
Proof.
  intros Hn Hq. unfold extra_opts.
  apply String.eqb_neq in Hn, Hq. rewrite Hn, Hq. simpl.
  apply app_nil_r.
Qed.

(* ================================================================== *)
(** * The selection resolver *)
(* ================================================================== *)

Section Resolver.

Variable registry : list Profile.

Lemma find_profile_none (n : string) :
  find_profile registry n = None <-> known registry n = false.
Proof.
  unfold find_profile, known.
  induction registry as [|p r IH]; simpl; [tauto|].
  destruct (name p =? n)%string; simpl; [split; discriminate|exact IH].
Qed.

Lemma find_profile_some (n : string) (p : Profile) :
  find_profile registry n = Some p ->
  In p registry /\ name p = n /\ known registry n = true.
Proof.
  intros H. unfold find_profile in H.
  destruct (find_some _ _ H) as [Hin Hname].
  apply String.eqb_eq in Hname. repeat split; try assumption.
  destruct (known registry n) eqn:Hk; [reflexivity|].
  apply find_profile_none in Hk. unfold find_profile in Hk. congruence.
Qed.

(** The loop adds the resolved profiles to the list so far and logs one
    warning per unknown name; it never raises. *)
Lemma select_profiles_acc (names : list string) :
  forall (acc : list Profile) (l : Locals),
    select_profiles registry names acc l
    = (Normal (acc ++ resolved registry names), l, warnings registry names).
Proof.
  unfold warnings.
  induction names as [|n names IH]; intros acc l; simpl.
  - now rewrite app_nil_r.
  - destruct (find_profile registry n) as [p|] eqn:Hf.
    + apply find_profile_some in Hf. destruct Hf as (_ & _ & Hk).
      rewrite Hk. simpl. rewrite IH. now rewrite <- app_assoc.
    + apply find_profile_none in Hf. rewrite Hf. simpl.
      unfold bind, log. rewrite IH. reflexivity.
Qed.

Lemma resolved_names (names : list string) :
  map name (resolved registry names) = filter (known registry) names.
Proof.
  induction names as [|n names IH]; simpl; [reflexivity|].
  destruct (find_profile registry n) as [p|] eqn:Hf.
  - apply find_profile_some in Hf. destruct Hf as (_ & Hn & Hk).
    rewrite Hk. simpl. now rewrite Hn, IH.
  - apply find_profile_none in Hf. now rewrite Hf.
Qed.

Lemma resolved_in_registry (names : list string) :
  Forall (fun p => In p registry) (resolved registry names).
Proof.
  induction names as [|n names IH]; simpl; [constructor|].
  destruct (find_profile registry n) as [p|] eqn:Hf; [|exact IH].
  constructor; [|exact IH]. now apply find_profile_some in Hf.
Qed.

Lemma resolved_all_unknown (names : list string) :
  (forall n, In n names -> known registry n = false) ->
  resolved registry names = []
  /\ warnings registry names
     = map (fun n => Log WARNING (unknown_profile_msg n)) names.
Proof.
  unfold warnings.
  induction names as [|n names IH]; intros H; simpl; [now split|].
  assert (Hn : known registry n = false) by (apply H; now left).
  destruct IH as [IH1 IH2]; [intros m Hm; apply H; now right|].
  rewrite Hn. simpl. rewrite IH2.
  apply find_profile_none in Hn. rewrite Hn. now split.
Qed.

(** C4.  Whatever names are requested, the resolver returns normally with
    the profiles of the names the registry knows, one per request, in the
    order of the requests and with repetitions kept: their names are the
    requested names filtered by membership in the registry, and each is an
    entry of the registry.  Each unknown name costs one warning and nothing
    else. *)
Theorem resolver_keeps_order_and_duplicates (names : list string) (l : Locals) :
  select_profiles registry names [] l
  = (Normal (resolved registry names), l, warnings registry names)
  /\ map name (resolved registry names) = filter (known registry) names
  /\ Forall (fun p => In p registry) (resolved registry names)
  /\ warnings registry names
     = map (fun n => Log WARNING (unknown_profile_msg n))
           (filter (fun n => negb (known registry n)) names).
Proof.
  split; [apply select_profiles_acc|].
  split; [apply resolved_names|].
  split; [apply resolved_in_registry|reflexivity].
Qed.

End Resolver.

(* ================================================================== *)
(** * The supervisor *)
(* ================================================================== *)

Lemma calls_app (t1 t2 : list event) : calls (t1 ++ t2) = calls t1 ++ calls t2.
Proof.
  induction t1 as [|[lvl msg|a r] t1 IH]; simpl; [reflexivity|exact IH|].
  now rewrite IH.
Qed.

Lemma trace_of_prepend {A} (t : list event) (x : result A * Locals * list event) :
  trace_of (prepend t x) = t ++ trace_of x.
Proof. now destruct x as [[r l] t']. Qed.

Lemma outcome_of_prepend {A} (t : list event) (x : result A * Locals * list event) :
  outcome_of (prepend t x) = outcome_of x.
Proof. now destruct x as [[r l] t']. Qed.

Lemma locals_of_prepend {A} (t : list event) (x : result A * Locals * list event) :
  locals_of (prepend t x) = locals_of x.
Proof. now destruct x as [[r l] t']. Qed.

Lemma bind_normal {A B} (m : M A) (k : A -> M B) (l l1 : Locals) (a : A)
    (t1 : list event) :
  m l = (Normal a, l1, t1) -> bind m k l = prepend t1 (k a l1).
Proof. intros H. unfold bind. now rewrite H. Qed.

Lemma calls_logs {A} (lvl : level) (f : A -> string) (xs : list A) :
  calls (map (fun x => Log lvl (f x)) xs) = [].
Proof. induction xs; simpl; auto. Qed.

Lemma warnings_quiet (registry : list Profile) (names : list string) :
  calls (warnings registry names) = [].
Proof. apply calls_logs. Qed.

(** The loop of lines 164-170 only logs. *)
Lemma log_profiles_quiet (ps : list Profile) (l : Locals) :
  exists t, log_profiles ps l = (Normal tt, l, t) /\ calls t = [].
Proof.
  induction ps as [|p ps [t [IH Ht]]]; cbn [log_profiles].
  - now exists [].
  - destruct (output_fps p), (x265_extra_opts p);
      unfold bind, log, ret; rewrite IH; unfold prepend;
      eexists; (split; [reflexivity|exact Ht]).
Qed.

Lemma registry_selection_compiles (names : list string) :
  exists cmd,
    build_ffmpeg_command RTSP_INPUT_URL
      (resolved ALL_STREAM_PROFILES names) MEDIAMTX_RTSP_BASE_URL = Normal cmd.
Proof.
  rewrite build_ffmpeg_command_closed.
  destruct (profile_blocks_defined MEDIAMTX_RTSP_BASE_URL
              (resolved ALL_STREAM_PROFILES names)) as [bs Hbs].
  - pose proof registry_rate_defined as Hreg.
    rewrite Forall_forall in Hreg.
    rewrite Forall_forall. intros p Hp. apply Hreg.
    pose proof (resolved_in_registry ALL_STREAM_PROFILES names) as Hin.
    rewrite Forall_forall in Hin. now apply Hin.
  - rewrite Hbs. simpl. eauto.
Qed.

(** With at least one known name, a run is its log preamble followed by the
    supervision of the compiled command. *)
Lemma run_supervises (env : Env) (names : list string) :
  resolved ALL_STREAM_PROFILES names <> [] ->
  exists cmd preamble,
    build_ffmpeg_command RTSP_INPUT_URL
      (resolved ALL_STREAM_PROFILES names) MEDIAMTX_RTSP_BASE_URL = Normal cmd
    /\ calls preamble = []
    /\ run env names
       = prepend preamble (supervise env cmd (set_ffmpeg_cmd cmd no_locals)).
Proof.
  intros Hne.
  destruct (registry_selection_compiles names) as [cmd Hcmd].
  unfold run, run_ffmpeg_transcoder.
  rewrite (bind_normal _ _ _ _ _ _ (select_profiles_acc _ _ _ _)).
  cbn [app].
  destruct (resolved ALL_STREAM_PROFILES names) as [|p ps] eqn:Hres;
    [congruence|].
  destruct (log_profiles_quiet (p :: ps) (set_ffmpeg_cmd cmd no_locals))
    as [t [Ht Hq]].
  exists cmd,
    (warnings ALL_STREAM_PROFILES names
     ++ [Log INFO "FFmpegトランスコーディングを開始します。";
         Log INFO ("入力RTSPソース: " ++ RTSP_INPUT_URL)%string;
         Log INFO ("MediaMTXプッシュ先ベースURL: " ++ MEDIAMTX_RTSP_BASE_URL)%string]
     ++ t
     ++ [Log INFO (nl ++ "実行されるFFmpegコマンド:" ++ nl ++ join " " cmd ++ nl)%string]).
  split; [exact Hcmd|]. split.
  - rewrite calls_app, warnings_quiet. cbn [app calls].
    rewrite calls_app, Hq. reflexivity.
  - unfold bind at 1, lift. rewrite Hcmd.
    unfold bind at 1, update.
    unfold bind at 1, log.
    unfold bind at 1.
    unfold bind at 1.
    unfold bind at 1. rewrite Ht.
    unfold bind at 1.
    destruct (supervise env cmd (set_ffmpeg_cmd cmd no_locals)) as [[r l] t'].
    unfold prepend. f_equal.
    repeat (rewrite <- ?app_assoc; cbn [app]). reflexivity.
Qed.

(** ** The pieces of the [try] statement *)

Section Supervision.

Variable env : Env.
Variable cmd : list string.

Lemma body_interrupted (l : Locals) :
  interrupted_while_running env ->
  supervise_body env cmd l
  = (Raised KeyboardInterrupt, started cmd l, interrupted_body_trace cmd).
Proof.
  intros (Hp & H1 & H2 & Hw & _).
  unfold supervise_body, bind, call, update, log.
  rewrite Hp, H1, H2, Hw. reflexivity.
Qed.

Lemma body_spawn_failure (l : Locals) (e : exn) :
  popen_176 env = Raised e ->
  supervise_body env cmd l = (Raised e, l, [Call (Popen cmd) (Some e)]).
Proof.
  intros Hp. unfold supervise_body, bind, call. now rewrite Hp.
Qed.

(** The child exits within the timeout. *)
Lemma interrupt_graceful (l : Locals) (c : Z) :
  process l <> None ->
  poll_201 env = Normal None ->
  terminate_202 env = Normal tt ->
  wait_204 env = Normal c ->
  on_keyboard_interrupt env l
  = (Normal tt, l,
     [Log INFO "Ctrl+C が検出されました。FFmpegプロセスを終了します。";
      Call Poll None; Call Terminate None; Call (Wait (Some 10)) None;
      stopped_record]).
Proof.
  intros Hproc Hpoll Hterm Hwait.
  unfold on_keyboard_interrupt, still_running, when, try_except, bind, call,
    log, get, ret.
  destruct (process l); [|congruence].
  rewrite Hpoll. cbn. rewrite Hterm, Hwait. reflexivity.
Qed.

(** The timeout elapses: kill, then wait. *)
Lemma interrupt_forced (l : Locals) :
  process l <> None ->
  poll_201 env = Normal None ->
  terminate_202 env = Normal tt ->
  wait_204 env = Raised TimeoutExpired ->
  kill_207 env = Normal tt ->
  on_keyboard_interrupt env l
  = match wait_208 env with
    | Normal _ =>
        (Normal tt, l,
         [Log INFO "Ctrl+C が検出されました。FFmpegプロセスを終了します。";
          Call Poll None; Call Terminate None;
          Call (Wait (Some 10)) (Some TimeoutExpired);
          Log WARNING
            "FFmpegプロセスがGraceful shutdownに応答しませんでした。強制終了します。";
          Call Kill None; Call (Wait None) None;
          stopped_record])
    | Raised e =>
        (Raised e, l,
         [Log INFO "Ctrl+C が検出されました。FFmpegプロセスを終了します。";
          Call Poll None; Call Terminate None;
          Call (Wait (Some 10)) (Some TimeoutExpired);
          Log WARNING
            "FFmpegプロセスがGraceful shutdownに応答しませんでした。強制終了します。";
          Call Kill None; Call (Wait None) (Some e)])
    end.
Proof.
  intros Hproc Hpoll Hterm Hwait Hkill.
  unfold on_keyboard_interrupt, on_timeout, still_running, when, try_except,
    bind, call, log, get, ret.
  destruct (process l); [|congruence].
  rewrite Hpoll. cbn. rewrite Hterm, Hwait. cbn. rewrite Hkill.
  destruct (wait_208 env); reflexivity.
Qed.

(** A second Ctrl+C during the graceful wait leaves the clause at once. *)
Lemma interrupt_interrupted (l : Locals) :
  process l <> None ->
  poll_201 env = Normal None ->
  terminate_202 env = Normal tt ->
  wait_204 env = Raised KeyboardInterrupt ->
  on_keyboard_interrupt env l
  = (Raised KeyboardInterrupt, l,
     [Log INFO "Ctrl+C が検出されました。FFmpegプロセスを終了します。";
      Call Poll None; Call Terminate None;
      Call (Wait (Some 10)) (Some KeyboardInterrupt)]).
Proof.
  intros Hproc Hpoll Hterm Hwait.
  unfold on_keyboard_interrupt, still_running, when, try_except, bind, call,
    log, get, ret.
  destruct (process l); [|congruence].
  rewrite Hpoll. cbn. rewrite Hterm, Hwait. reflexivity.
Qed.

(** The [finally] block with both threads bound: only [is_alive] and [join]
    calls, and a normal end when they all return. *)
Lemma join_threads_bound (l : Locals) :
  stdout_thread l <> None ->
  stderr_thread l <> None ->
  exists r t,
    join_threads env l = (r, l, t)
    /\ forallb is_teardown (calls t) = true
    /\ (teardown_returns env -> r = Normal tt).
Proof.
  intros Hout Herr.
  destruct (stdout_thread l) eqn:Eout; [|congruence].
  destruct (stderr_thread l) eqn:Eerr; [|congruence].
  unfold join_threads, read, when, bind, call, ret, teardown_returns.
  rewrite Eout.
  destruct (is_alive_215 env) as [[|]|e1], (join_216 env) as [[]|e2],
    (is_alive_217 env) as [[|]|e3], (join_218 env) as [[]|e4];
    cbn; rewrite ?Eerr; cbn;
    eexists _, _; (split; [reflexivity|]); (split; [reflexivity|]);
    intros ([a Ha] & Hj & [a' Ha'] & Hj'); congruence.
Qed.

(** The [finally] block when the spawn failed: the first thing it does is
    read a variable that was never bound. *)
Lemma join_threads_unbound (l : Locals) :
  stdout_thread l = None ->
  join_threads env l = (Raised (UnboundLocalError "stdout_thread"), l, []).
Proof.
  intros H. unfold join_threads, read, bind. now rewrite H.
Qed.

End Supervision.

(** ** Whole runs *)

(** Supervision after an interrupted wait: the body, then the clause
    [except KeyboardInterrupt], then the [finally] block, whose exception, if
    any, wins. *)
Lemma supervise_on_interrupt (env : Env) (cmd : list string) (l : Locals)
    (r rf : result unit) (th tf : list event) :
  interrupted_while_running env ->
  on_keyboard_interrupt env (started cmd l) = (r, started cmd l, th) ->
  join_threads env (started cmd l) = (rf, started cmd l, tf) ->
  supervise env cmd l
  = (match rf with Normal _ => r | Raised e => Raised e end,
     started cmd l, interrupted_body_trace cmd ++ th ++ tf).
Proof.
  intros Hint Hh Hj.
  unfold supervise, bind, update, try_finally, try_except.
  rewrite (body_interrupted env cmd _ Hint).
  cbn [handlers]. change (started cmd (set_process None l)) with (started cmd l).
  rewrite Hh. cbn [prepend]. rewrite Hj.
  destruct rf; cbn [prepend app]; now rewrite <- app_assoc.
Qed.

(** C5.  When the registry knows none of the requested names, the run logs
    one warning per name and the error record, and returns: no call is made
    (in particular no [Popen]) and [ffmpeg_cmd] is never bound, that is, the
    command is not compiled. *)
Theorem no_valid_profiles_stops_the_run (env : Env) (names : list string) :
  (forall n, In n names -> known ALL_STREAM_PROFILES n = false) ->
  run env names
  = (Normal tt, no_locals,
     map (fun n => Log WARNING (unknown_profile_msg n)) names
     ++ [no_valid_profiles_record])
  /\ calls (trace_of (run env names)) = []
  /\ ffmpeg_cmd (locals_of (run env names)) = None.
Proof.
  intros Hnone.
  destruct (resolved_all_unknown ALL_STREAM_PROFILES names Hnone) as [Hres Hw].
  assert (Hrun : run env names
                 = (Normal tt, no_locals,
                    map (fun n => Log WARNING (unknown_profile_msg n)) names
                    ++ [no_valid_profiles_record])).
  { unfold run, run_ffmpeg_transcoder.
    rewrite (bind_normal _ _ _ _ _ _ (select_profiles_acc _ _ _ _)).
    cbn [app]. rewrite Hres, Hw. reflexivity. }
  split; [exact Hrun|]. rewrite Hrun. split; [|reflexivity].
  unfold trace_of. cbn [snd]. rewrite calls_app, calls_logs. reflexivity.
Qed.

Lemma no_valid_profiles_stops_the_run_witness :
  run quiet_env ["bogus"]
  = (Normal tt, no_locals,
     map (fun n => Log WARNING (unknown_profile_msg n)) ["bogus"]
     ++ [no_valid_profiles_record])
  /\ calls (trace_of (run quiet_env ["bogus"])) = []
  /\ ffmpeg_cmd (locals_of (run quiet_env ["bogus"])) = None.
Proof.
  apply (no_valid_profiles_stops_the_run quiet_env ["bogus"]).
  intros n [<-|[]]. reflexivity.
Defined.

(** Any failure of [Popen] that is an [Exception]: one spawn, the error
    record, no kill, and then the [finally] block raises
    [UnboundLocalError], which leaves [run_ffmpeg_transcoder] uncaught. *)
Lemma spawn_failure_in_general (env : Env) (names : list string) (e : exn) :
  resolved ALL_STREAM_PROFILES names <> [] ->
  popen_176 env = Raised e ->
  is_Exception e = true ->
  exists cmd,
    build_ffmpeg_command RTSP_INPUT_URL
      (resolved ALL_STREAM_PROFILES names) MEDIAMTX_RTSP_BASE_URL = Normal cmd
    /\ calls (trace_of (run env names)) = [Popen cmd]
    /\ outcome_of (run env names) = Raised (UnboundLocalError "stdout_thread").
Proof.
  intros Hne Hp He.
  destruct (run_supervises env names Hne) as (cmd & pre & Hcmd & Hq & Hrun).
  exists cmd. split; [exact Hcmd|].
  rewrite Hrun, trace_of_prepend, outcome_of_prepend, calls_app, Hq.
  unfold supervise, bind, update, try_finally, try_except.
  rewrite (body_spawn_failure env cmd _ e Hp).
  assert (Hh : handlers env e = Some (on_exception env e))
    by (destruct e; try reflexivity; discriminate).
  rewrite Hh. now destruct e.
Qed.

(** C6 fails on the code.  With [ffmpeg] missing, the run spawns once, logs
    the error and kills nothing, but the [finally] block then reads
    [stdout_thread], which line 187 never bound: the run ends with an uncaught
    [UnboundLocalError]. *)
Theorem spawn_failure_breaks_teardown :
  popen_176 env_not_found = Raised FileNotFoundError
  /\ (exists cmd,
        build_ffmpeg_command RTSP_INPUT_URL [profile_high]
          MEDIAMTX_RTSP_BASE_URL = Normal cmd
        /\ calls (trace_of (run env_not_found ["high"])) = [Popen cmd])
  /\ outcome_of (run env_not_found ["high"])
     = Raised (UnboundLocalError "stdout_thread")
  /\ last (trace_of (run env_not_found ["high"])) (Log DEBUG EmptyString)
     = Log ERROR
         ("FFmpeg実行中に予期せぬエラーが発生しました: "
          ++ exn_text env_not_found FileNotFoundError).
Proof.
  split; [reflexivity|]. split; [eexists; split; reflexivity|].
  split; reflexivity.
Qed.

(** C8.  Ctrl+C while the main thread waits for a running child, and
    [terminate] returns.  The calls of the run are then, in order: the spawn,
    the two thread starts, the interrupted wait, the poll, [terminate], the
    wait with timeout 10, and
    - if that wait returns, nothing but the thread joins: no [kill];
    - if it times out, [kill], then a wait without timeout, then the thread
      joins. *)
Theorem graceful_then_forced (env : Env) (names : list string) :
  resolved ALL_STREAM_PROFILES names <> [] ->
  interrupted_while_running env ->
  terminate_202 env = Normal tt ->
  exists cmd,
    build_ffmpeg_command RTSP_INPUT_URL
      (resolved ALL_STREAM_PROFILES names) MEDIAMTX_RTSP_BASE_URL = Normal cmd
    /\ (forall c, wait_204 env = Normal c ->
          existsb is_kill (calls (trace_of (run env names))) = false
          /\ exists teardown,
               forallb is_teardown teardown = true
               /\ calls (trace_of (run env names))
                  = [Popen cmd; ThreadStart STDOUT; ThreadStart STDERR;
                     Wait None; Poll; Terminate; Wait (Some 10)] ++ teardown)
    /\ (wait_204 env = Raised TimeoutExpired ->
        kill_207 env = Normal tt ->
        exists teardown,
          forallb is_teardown teardown = true
          /\ calls (trace_of (run env names))
             = [Popen cmd; ThreadStart STDOUT; ThreadStart STDERR;
                Wait None; Poll; Terminate; Wait (Some 10); Kill; Wait None]
               ++ teardown).
Proof.
  intros Hne Hint Hterm.
  destruct (run_supervises env names Hne) as (cmd & pre & Hcmd & Hq & Hrun).
  pose proof Hint as (_ & _ & _ & _ & Hpoll).
  set (l := started cmd (set_ffmpeg_cmd cmd no_locals)).
  assert (Hproc : process l <> None) by discriminate.
  destruct (join_threads_bound env l) as (rf & tf & Hj & Htf & _);
    [discriminate|discriminate|].
  exists cmd. split; [exact Hcmd|]. split.
  - intros c Hwait.
    pose proof (supervise_on_interrupt env cmd _ _ _ _ _ Hint
                  (interrupt_graceful env l c Hproc Hpoll Hterm Hwait) Hj)
      as Hsup.
    rewrite Hrun, Hsup, trace_of_prepend, calls_app, Hq.
    unfold trace_of. cbn [snd app]. rewrite !calls_app.
    cbn [interrupted_body_trace stopped_record calls app].
    split; [|exists (calls tf); split; [exact Htf|reflexivity]].
    cbn [existsb is_kill orb].
    clear - Htf. induction (calls tf) as [|a t IH]; [reflexivity|].
    cbn [forallb] in Htf. apply andb_true_iff in Htf. destruct Htf as [Ha Ht].
    cbn [existsb]. rewrite (IH Ht). now destruct a.
  - intros Hwait Hkill.
    pose proof (interrupt_forced env l Hproc Hpoll Hterm Hwait Hkill) as Hh.
    destruct (wait_208 env) as [c|e];
      pose proof (supervise_on_interrupt env cmd _ _ _ _ _ Hint Hh Hj) as Hsup;
      rewrite Hrun, Hsup, trace_of_prepend, calls_app, Hq;
      unfold trace_of; cbn [snd app]; rewrite !calls_app;
      cbn [interrupted_body_trace stopped_record calls app];
      exists (calls tf); (split; [exact Htf|reflexivity]).
Qed.

Lemma graceful_then_forced_witness :
  exists cmd,
    build_ffmpeg_command RTSP_INPUT_URL
      (resolved ALL_STREAM_PROFILES ["high"]) MEDIAMTX_RTSP_BASE_URL = Normal cmd
    /\ (forall c, wait_204 env_stubborn = Normal c ->
          existsb is_kill (calls (trace_of (run env_stubborn ["high"]))) = false
          /\ exists teardown,
               forallb is_teardown teardown = true
               /\ calls (trace_of (run env_stubborn ["high"]))
                  = [Popen cmd; ThreadStart STDOUT; ThreadStart STDERR;
                     Wait None; Poll; Terminate; Wait (Some 10)] ++ teardown)
    /\ (wait_204 env_stubborn = Raised TimeoutExpired ->
        kill_207 env_stubborn = Normal tt ->
        exists teardown,
          forallb is_teardown teardown = true
          /\ calls (trace_of (run env_stubborn ["high"]))
             = [Popen cmd; ThreadStart STDOUT; ThreadStart STDERR;
                Wait None; Poll; Terminate; Wait (Some 10); Kill; Wait None]
               ++ teardown).
Proof.
  apply (graceful_then_forced env_stubborn ["high"]).
  - simpl. discriminate.
  - unfold interrupted_while_running. simpl. repeat split; reflexivity.
  - reflexivity.
Defined.

(** C9, as amended.  Ctrl+C while the main thread waits for a running child,
    [terminate] returns and the calls of the [finally] block return.
    - If no further interrupt arrives, the sequence runs to completion: the
      child is seen to exit within the timeout, or it is killed and waited
      for; the run then joins the threads and returns normally.
    - A second Ctrl+C is not held back.  Arriving during the wait with
      timeout, it ends the sequence there: no [kill] is issued, the [finally]
      block still runs, and the interrupt leaves [run_ffmpeg_transcoder]. *)
Theorem termination_runs_unless_interrupted (env : Env) (names : list string) :
  resolved ALL_STREAM_PROFILES names <> [] ->
  interrupted_while_running env ->
  terminate_202 env = Normal tt ->
  teardown_returns env ->
  exists cmd teardown,
    build_ffmpeg_command RTSP_INPUT_URL
      (resolved ALL_STREAM_PROFILES names) MEDIAMTX_RTSP_BASE_URL = Normal cmd
    /\ forallb is_teardown teardown = true
    /\ (forall c, wait_204 env = Normal c ->
          outcome_of (run env names) = Normal tt
          /\ calls (trace_of (run env names))
             = [Popen cmd; ThreadStart STDOUT; ThreadStart STDERR;
                Wait None; Poll; Terminate; Wait (Some 10)] ++ teardown)
    /\ (forall c, wait_204 env = Raised TimeoutExpired ->
          kill_207 env = Normal tt -> wait_208 env = Normal c ->
          outcome_of (run env names) = Normal tt
          /\ calls (trace_of (run env names))
             = [Popen cmd; ThreadStart STDOUT; ThreadStart STDERR;
                Wait None; Poll; Terminate; Wait (Some 10); Kill; Wait None]
               ++ teardown)
    /\ (wait_204 env = Raised KeyboardInterrupt ->
          outcome_of (run env names) = Raised KeyboardInterrupt
          /\ calls (trace_of (run env names))
             = [Popen cmd; ThreadStart STDOUT; ThreadStart STDERR;
                Wait None; Poll; Terminate; Wait (Some 10)] ++ teardown).
Proof.
  intros Hne Hint Hterm Htear.
  destruct (run_supervises env names Hne) as (cmd & pre & Hcmd & Hq & Hrun).
  pose proof Hint as (_ & _ & _ & _ & Hpoll).
  set (l := started cmd (set_ffmpeg_cmd cmd no_locals)).
  assert (Hproc : process l <> None) by discriminate.
  destruct (join_threads_bound env l) as (rf & tf & Hj & Htf & Hr);
    [discriminate|discriminate|].
  specialize (Hr Htear). subst rf.
  assert (Hrun' : forall r th,
            on_keyboard_interrupt env l = (r, l, th) ->
            outcome_of (run env names) = r
            /\ calls (trace_of (run env names))
               = calls (interrupted_body_trace cmd) ++ calls th ++ calls tf).
  { intros r th Hh.
    pose proof (supervise_on_interrupt env cmd _ _ _ _ _ Hint Hh Hj) as Hsup.
    rewrite Hrun, Hsup, trace_of_prepend, outcome_of_prepend, calls_app, Hq.
    unfold trace_of, outcome_of. cbn [fst snd app].
    now rewrite !calls_app. }
  exists cmd, (calls tf). split; [exact Hcmd|]. split; [exact Htf|].
  split; [|split].
  - intros c Hwait.
    apply (Hrun' _ _ (interrupt_graceful env l c Hproc Hpoll Hterm Hwait)).
  - intros c Hwait Hkill Hw.
    pose proof (interrupt_forced env l Hproc Hpoll Hterm Hwait Hkill) as Hh.
    rewrite Hw in Hh. apply (Hrun' _ _ Hh).
  - intros Hwait.
    apply (Hrun' _ _ (interrupt_interrupted env l Hproc Hpoll Hterm Hwait)).
Qed.

Lemma termination_runs_unless_interrupted_witness :
  exists cmd teardown,
    build_ffmpeg_command RTSP_INPUT_URL
      (resolved ALL_STREAM_PROFILES ["high"; "low"]) MEDIAMTX_RTSP_BASE_URL
    = Normal cmd
    /\ forallb is_teardown teardown = true
    /\ (forall c, wait_204 env_graceful = Normal c ->
          outcome_of (run env_graceful ["high"; "low"]) = Normal tt
          /\ calls (trace_of (run env_graceful ["high"; "low"]))
             = [Popen cmd; ThreadStart STDOUT; ThreadStart STDERR;
                Wait None; Poll; Terminate; Wait (Some 10)] ++ teardown)
    /\ (forall c, wait_204 env_graceful = Raised TimeoutExpired ->
          kill_207 env_graceful = Normal tt -> wait_208 env_graceful = Normal c ->
          outcome_of (run env_graceful ["high"; "low"]) = Normal tt
          /\ calls (trace_of (run env_graceful ["high"; "low"]))
             = [Popen cmd; ThreadStart STDOUT; ThreadStart STDERR;
                Wait None; Poll; Terminate; Wait (Some 10); Kill; Wait None]
               ++ teardown)
    /\ (wait_204 env_graceful = Raised KeyboardInterrupt ->
          outcome_of (run env_graceful ["high"; "low"]) = Raised KeyboardInterrupt
          /\ calls (trace_of (run env_graceful ["high"; "low"]))
             = [Popen cmd; ThreadStart STDOUT; ThreadStart STDERR;
                Wait None; Poll; Terminate; Wait (Some 10)] ++ teardown).
Proof.
  apply (termination_runs_unless_interrupted env_graceful ["high"; "low"]).
  - simpl. discriminate.
  - unfold interrupted_while_running. simpl. repeat split; reflexivity.
  - reflexivity.
  - unfold teardown_returns. simpl.
    repeat split; try reflexivity; exists false; reflexivity.
Defined.

(** C9 as stated fails: Ctrl+C during the wait for the child, the child still
    running, [terminate] sent, and a second Ctrl+C during the wait with
    timeout.  The run issues no [kill], goes through the [finally] block and
    ends with the second [KeyboardInterrupt] uncaught. *)
Lemma second_interrupt_skips_the_kill :
  interrupted_while_running env_twice
  /\ terminate_202 env_twice = Normal tt
  /\ wait_204 env_twice = Raised KeyboardInterrupt
  /\ existsb is_kill (calls (trace_of (run env_twice ["high"]))) = false
  /\ outcome_of (run env_twice ["high"]) = Raised KeyboardInterrupt
  /\ exists cmd,
       calls (trace_of (run env_twice ["high"]))
       = [Popen cmd; ThreadStart STDOUT; ThreadStart STDERR; Wait None;
          Poll; Terminate; Wait (Some 10); IsAlive STDOUT; IsAlive STDERR].
Proof.
  split; [unfold interrupted_while_running; simpl; repeat split; reflexivity|].
  split; [reflexivity|]. split; [reflexivity|]. split; [reflexivity|].
  split; [reflexivity|]. eexists. reflexivity.
Qed.

(* ================================================================== *)
(** * The line classifier *)
(* ================================================================== *)

Lemma prefix_spec (n : string) : forall h,
  String.prefix n h = true <-> exists post, h = (n ++ post)%string.
Proof.
  induction n as [|c n IH]; intros h.
  - split; [intros _; now exists h|intros _; now destruct h].
  - destruct h as [|d h]; simpl.
    + split; [discriminate|intros [post H]; discriminate].
    + destruct (ascii_dec c d) as [->|Hcd].
      * rewrite IH. split; intros [post H]; exists post; congruence.
      * split; [discriminate|intros [post H]; congruence].
Qed.

(** [needle in hay] decides [Substring needle hay]. *)
Lemma contains_spec (n : string) : forall h,
  contains n h = true <-> Substring n h.
Proof.
  unfold Substring.
  induction h as [|d h IH]; cbn [contains].
  - rewrite orb_false_r, prefix_spec. split.
    + intros [post H]. now exists EmptyString, post.
    + intros (pre & post & H). destruct pre; simpl in H; [now exists post|].
      discriminate.
  - rewrite orb_true_iff, IH, prefix_spec. split.
    + intros [[post H]|(pre & post & H)].
      * now exists EmptyString, post.
      * exists (String d pre), post. simpl. now rewrite H.
    + intros (pre & post & H). destruct pre as [|c pre]; simpl in H.
      * left. now exists post.
      * right. exists pre, post. congruence.
Qed.

Lemma lower_app (a b : string) :
  lower (a ++ b) = (lower a ++ lower b)%string.
Proof. induction a as [|c a IH]; simpl; [reflexivity|now rewrite IH]. Qed.

Lemma lower_split (a : string) : forall s b,
  lower s = (a ++ b)%string ->
  exists a' b', s = (a' ++ b')%string /\ lower a' = a /\ lower b' = b.
Proof.
  induction a as [|c a IH]; intros s b H; simpl in H.
  - now exists EmptyString, s.
  - destruct s as [|d s]; simpl in H; [discriminate|].
    injection H as Hc Hs.
    destruct (IH _ _ Hs) as (a' & b' & -> & Ha & Hb).
    exists (String d a'), b'. simpl. now rewrite Hc, Ha.
Qed.

(** [str.lower] turns the capital letters A-Z into their small letters and
    leaves every other byte alone. *)
Lemma lower_ascii_small (c : ascii) : lower_ascii c = small_letter c.
Proof. destruct c as [[] [] [] [] [] [] [] []]; reflexivity. Qed.

Lemma lower_small (s : string) : lower s = small_letters s.
Proof.
  induction s as [|c s IH]; cbn [lower small_letters]; [reflexivity|].
  now rewrite lower_ascii_small, IH.
Qed.

(** For a keyword written in small letters, [keyword in line.lower()]
    decides [SubstringNoCase keyword line]. *)
Lemma contains_lower_spec (k line : string) :
  small_letters k = k ->
  contains k (lower line) = true <-> SubstringNoCase k line.
Proof.
  intros Hk.
  rewrite contains_spec. unfold Substring, SubstringNoCase, SameLetters.
  rewrite Hk. split.
  - intros (pre & post & H).
    destruct (lower_split _ _ _ H) as (pre' & rest & -> & _ & Hrest).
    destruct (lower_split _ _ _ Hrest) as (w & post' & -> & Hw & _).
    exists pre', w, post'. now rewrite <- lower_small.
  - intros (pre & w & post & -> & Hw). rewrite <- lower_small in Hw.
    exists (lower pre), (lower post). now rewrite !lower_app, Hw.
Qed.

Lemma progress_marker_spec (line : string) :
  contains "frame=" line || contains "speed=" line = true
  <-> ProgressMarker line.
Proof.
  unfold ProgressMarker. now rewrite orb_true_iff, !contains_spec.
Qed.

Lemma error_keyword_spec (line : string) :
  contains "error" (lower line) || contains "failed" (lower line)
  || contains "no such file or directory" (lower line)
  || contains "invalid argument" (lower line) = true
  <-> ErrorKeyword line.
Proof.
  unfold ErrorKeyword.
  rewrite !orb_true_iff, !contains_lower_spec by reflexivity. tauto.
Qed.

(** C7.  The level of the record logged for a line: INFO when the line
    contains [frame=] or [speed=]; otherwise WARNING when it contains, in any
    letter case, one of [error], [failed], [no such file or directory],
    [invalid argument]; otherwise DEBUG.  The three cases are read in this
    order, as the branches of the code are. *)
Theorem line_level (prefix line : string) :
  (ProgressMarker line -> fst (log_stream_line prefix line) = INFO)
  /\ (~ ProgressMarker line -> ErrorKeyword line ->
      fst (log_stream_line prefix line) = WARNING)
  /\ (~ ProgressMarker line -> ~ ErrorKeyword line ->
      fst (log_stream_line prefix line) = DEBUG).
Proof.
  pose proof (progress_marker_spec line) as Hp.
  pose proof (error_keyword_spec line) as He.
  unfold log_stream_line.
  destruct (contains "frame=" line || contains "speed=" line);
    destruct (contains "error" (lower line) || contains "failed" (lower line)
              || contains "no such file or directory" (lower line)
              || contains "invalid argument" (lower line));
    cbn [fst]; repeat split; intros; try reflexivity;
    try (exfalso; tauto);
    try (exfalso; assert (false = true) by tauto; discriminate).
Qed.

(** C10.  A line with a progress marker and an error keyword is logged at
    INFO, not at WARNING. *)
Theorem progress_marker_wins (prefix line : string) :
  ProgressMarker line ->
  ErrorKeyword line ->
  fst (log_stream_line prefix line) = INFO
  /\ fst (log_stream_line prefix line) <> WARNING.
Proof.
  intros Hp _. apply progress_marker_spec in Hp.
  unfold log_stream_line. rewrite Hp. cbn [fst]. split; [reflexivity|discriminate].
Qed.

Lemma progress_marker_wins_witness :
  fst (log_stream_line "FFMPEG_STDERR" "frame=  10 Error while decoding")
  = INFO
  /\ fst (log_stream_line "FFMPEG_STDERR" "frame=  10 Error while decoding")
     <> WARNING.
Proof.
  apply (progress_marker_wins "FFMPEG_STDERR" "frame=  10 Error while decoding").
  - left. exists EmptyString, "  10 Error while decoding". reflexivity.
  - left. exists "frame=  10 ", "Error", " while decoding". split; reflexivity.
Defined.

(** The drain loop classifies every line of the stream, in order. *)
Lemma log_stream_output_levels (pipe : list string) (prefix : string) :
  map fst (log_stream_output pipe prefix)
  = map (fun line => fst (log_stream_line prefix line)) pipe.
Proof. unfold log_stream_output. now rewrite map_map. Qed.

Example classify_frame :
  log_stream_line "FFMPEG_STDERR" ("frame=  100 fps= 20 q=30.0" ++ nl)
  = (INFO, "[FFMPEG_STDERR] frame=  100 fps= 20 q=30.0").
Proof. reflexivity. Qed.

Example classify_invalid_argument :
  log_stream_line "FFMPEG_STDERR" ("rtsp://x: Invalid argument" ++ nl)
  = (WARNING, "[FFMPEG_STDERR] rtsp://x: Invalid argument").
Proof. reflexivity. Qed.

Example classify_other :
  log_stream_line "FFMPEG_STDOUT" ("Stream mapping:" ++ nl)
  = (DEBUG, "[FFMPEG_STDOUT] Stream mapping:").
Proof. reflexivity. Qed.

(* ================================================================== *)
(** * More on the command compiler *)
(* ================================================================== *)

Lemma profile_blocks_app (base_url : string) (ps1 ps2 : list Profile) :
  profile_blocks base_url (ps1 ++ ps2)
  = (b1 <- profile_blocks base_url ps1 ;;
     b2 <- profile_blocks base_url ps2 ;;
     Normal (b1 ++ b2))%py.
Proof.
  induction ps1 as [|p ps1 IH]; cbn [app profile_blocks].
  - cbn [rbind app]. now destruct (profile_blocks base_url ps2).
  - destruct (profile_block base_url p) as [b|e]; cbn [rbind]; [|reflexivity].
    rewrite IH.
    destruct (profile_blocks base_url ps1) as [b1|e]; cbn [rbind]; [|reflexivity].
    destruct (profile_blocks base_url ps2) as [b2|e]; cbn [rbind]; [|reflexivity].
    now rewrite app_assoc.
Qed.

(** X1.  The vector for a selection followed by another is the vector of the
    first followed by the vector of the second without its ten global
    arguments: a block depends on its profile only, not on its position. *)
Theorem compile_concatenates (input_url base_url : string)
    (ps1 ps2 : list Profile) (c1 c2 : list string) :
  build_ffmpeg_command input_url ps1 base_url = Normal c1 ->
  build_ffmpeg_command input_url ps2 base_url = Normal c2 ->
  build_ffmpeg_command input_url (ps1 ++ ps2) base_url
  = Normal (c1 ++ skipn 10 c2).
Proof.
  rewrite !build_ffmpeg_command_closed, profile_blocks_app.
  destruct (profile_blocks base_url ps1) as [b1|e]; cbn [rbind]; [|discriminate].
  destruct (profile_blocks base_url ps2) as [b2|e]; cbn [rbind]; [|discriminate].
  intros H1 H2.
  replace c1 with (global_args input_url ++ b1) by congruence.
  replace c2 with (global_args input_url ++ b2) by congruence.
  unfold global_args. cbn [app skipn]. reflexivity.
Qed.

Lemma compile_concatenates_witness :
  build_ffmpeg_command RTSP_INPUT_URL ([profile_high] ++ [profile_low])
    MEDIAMTX_RTSP_BASE_URL
  = Normal
      (global_args RTSP_INPUT_URL
       ++ block_args MEDIAMTX_RTSP_BASE_URL profile_high 665
       ++ skipn 10 (global_args RTSP_INPUT_URL
                    ++ block_args MEDIAMTX_RTSP_BASE_URL profile_low 384)).
Proof.
  rewrite app_assoc.
  apply (compile_concatenates RTSP_INPUT_URL MEDIAMTX_RTSP_BASE_URL
           [profile_high] [profile_low]).
  - reflexivity.
  - reflexivity.
Defined.

(** ** What line 105 accepts *)

Lemma int_of_str_unfold (s : string) :
  int_of_str s
  = match
      match strip s with
      | EmptyString => digits false 0 EmptyString
      | String a d =>
          if Ascii.eqb a "-" then option_map Z.opp (digits false 0 d)
          else if Ascii.eqb a "+" then digits false 0 d
          else digits false 0 (String a d)
      end
    with
    | Some n => Normal n
    | None => Raised ValueError
    end.
Proof.
  unfold int_of_str. destruct (strip s) as [|a d]; [reflexivity|].
  destruct a as [[] [] [] [] [] [] [] []]; reflexivity.
Qed.

Lemma digits_chars (s : string) : forall b acc n c,
  digits b acc s = Some n ->
  In c (list_ascii_of_string s) ->
  is_digit c = true \/ c = "_"%char.
Proof.
  induction s as [|a s IH]; intros b acc n c H Hin; cbn in Hin; [easy|].
  cbn [digits] in H. destruct (is_digit a) eqn:Ha.
  - destruct Hin as [<-|Hin]; [now left|]. eapply IH; eassumption.
  - destruct (Ascii.eqb_spec a "_") as [->|Hne]; cbn [andb] in H;
      [|discriminate].
    destruct b; [|discriminate].
    destruct Hin as [<-|Hin]; [now right|]. eapply IH; eassumption.
Qed.

Lemma in_replace (old c : ascii) (s : string) :
  In c (list_ascii_of_string s) -> c <> old ->
  In c (list_ascii_of_string (replace old EmptyString s)).
Proof.
  intros Hin Hne. induction s as [|a s IH]; cbn in *; [easy|].
  destruct (Ascii.eqb_spec a old) as [->|_]; cbn.
  - destruct Hin as [<-|Hin]; [congruence|auto].
  - destruct Hin as [<-|Hin]; auto.
Qed.

Lemma in_lstrip (c : ascii) (s : string) :
  In c (list_ascii_of_string s) -> is_space c = false ->
  In c (list_ascii_of_string (lstrip s)).
Proof.
  intros Hin Hc. induction s as [|a s IH]; cbn in *; [easy|].
  destruct (is_space a) eqn:Ha.
  - destruct Hin as [<-|Hin]; [congruence|auto].
  - exact Hin.
Qed.

Lemma in_rstrip (c : ascii) (s : string) :
  In c (list_ascii_of_string s) -> is_space c = false ->
  In c (list_ascii_of_string (rstrip s)).
Proof.
  intros Hin Hc. induction s as [|a s IH]; cbn [rstrip]; [easy|].
  cbn in Hin. destruct Hin as [<-|Hin].
  - destruct (rstrip s); [rewrite Hc|]; now left.
  - specialize (IH Hin). destruct (rstrip s); [easy|]. now right.
Qed.

Lemma bad_character_is_rejected (p : Profile) (c : ascii) :
  In c (list_ascii_of_string (video_bitrate p)) ->
  bitrate_char c = false ->
  base_bitrate_k p = Raised ValueError.
Proof.
  unfold bitrate_char. rewrite !orb_false_iff.
  intros Hin (((((Hd & Hs) & Hk) & Hu) & Hplus) & Hminus).
  apply Ascii.eqb_neq in Hk, Hu, Hplus, Hminus.
  unfold base_bitrate_k. rewrite int_of_str_unfold.
  assert (Hbody : In c (list_ascii_of_string
                          (strip (replace "k" EmptyString (video_bitrate p))))).
  { unfold strip. apply in_rstrip; [|exact Hs].
    apply in_lstrip; [|exact Hs]. now apply in_replace. }
  assert (Hno : forall b acc n s,
             In c (list_ascii_of_string s) -> digits b acc s <> Some n).
  { intros b acc n s Hc H.
    destruct (digits_chars s b acc n c H Hc); congruence. }
  destruct (strip (replace "k" EmptyString (video_bitrate p))) as [|a d];
    [easy|].
  destruct (Ascii.eqb_spec a "-") as [->|_];
    [|destruct (Ascii.eqb_spec a "+") as [->|_]].
  - cbn in Hbody. destruct Hbody as [<-|Hbody]; [congruence|].
    destruct (digits false 0 d) eqn:Hdg; [|reflexivity].
    now apply Hno in Hdg.
  - cbn in Hbody. destruct Hbody as [<-|Hbody]; [congruence|].
    destruct (digits false 0 d) eqn:Hdg; [|reflexivity].
    now apply Hno in Hdg.
  - destruct (digits false 0 (String a d)) eqn:Hdg; [|reflexivity].
    now apply Hno in Hdg.
Qed.

(** X3.  A video bitrate that holds an ASCII character other than a digit,
    [k], [_], a sign or white space (a unit such as [M], a decimal point)
    makes the compiler raise [ValueError] as soon as it reaches the
    profile. *)
Theorem compile_rejects_bitrate (input_url base_url : string)
    (p : Profile) (ps : list Profile) (c : ascii) :
  In c (list_ascii_of_string (video_bitrate p)) ->
  is_ascii c = true ->
  bitrate_char c = false ->
  build_ffmpeg_command input_url (p :: ps) base_url = Raised ValueError.
Proof.
  intros Hin _ Hc. rewrite build_ffmpeg_command_closed.
  cbn [profile_blocks]. unfold profile_block, max_rate_k.
  now rewrite (bad_character_is_rejected p c Hin Hc).
Qed.

Lemma compile_rejects_bitrate_witness :
  build_ffmpeg_command RTSP_INPUT_URL [profile_megabit; profile_high]
    MEDIAMTX_RTSP_BASE_URL = Raised ValueError.
Proof.
  apply (compile_rejects_bitrate RTSP_INPUT_URL MEDIAMTX_RTSP_BASE_URL
           profile_megabit [profile_high] "M"%char).
  - simpl. right. left. reflexivity.
  - reflexivity.
  - reflexivity.
Defined.

Lemma negative_bitrate_of_text (q : positive) :
  int_of_str (replace "k" EmptyString (str (Z.neg q) ++ "k")) = Normal (Z.neg q).
Proof.
  unfold str. cbn [Z.to_int NilZero.string_of_int append].
  unfold NilZero.string_of_uint.
  pose proof (DecimalPos.Unsigned.to_uint_nonnil q) as Hnil.
  assert (Hd : (match Pos.to_uint q with
                | Decimal.Nil => "0"
                | _ => NilEmpty.string_of_uint (Pos.to_uint q)
                end) = NilEmpty.string_of_uint (Pos.to_uint q))
    by (destruct (Pos.to_uint q); congruence).
  rewrite Hd. clear Hd.
  pose proof (all_digits_of_uint (Pos.to_uint q)) as Hall.
  set (ds := NilEmpty.string_of_uint (Pos.to_uint q)) in *.
  cbn [replace]. change (Ascii.eqb "-" "k") with false. cbv iota.
  rewrite replace_k_digits by exact Hall.
  rewrite int_of_str_unfold.
  assert (Hstrip : strip (String "-" ds) = String "-" ds).
  { unfold strip. cbn [lstrip]. change (is_space "-") with false. cbv iota.
    cbn [rstrip]. rewrite (rstrip_digits ds Hall). now destruct ds. }
  rewrite Hstrip. change (Ascii.eqb "-" "-") with true. cbv iota.
  unfold ds. rewrite digits_of_uint by (left; exact Hnil).
  rewrite <- uint_value_of_uint, DecimalPos.Unsigned.of_to. reflexivity.
Qed.

(** X4.  Writing and reading rates agree: the text [f'{n}k'], which is how
    lines 111-112 write a rate of [n] kbps, is read back as [n] by line 105,
    for every integer [n]. *)
Theorem rate_text_round_trip (p : Profile) (n : Z) :
  video_bitrate p = (str n ++ "k")%string ->
  base_bitrate_k p = Normal n.
Proof.
  intros Hv. destruct (Z.leb_spec 0 n) as [Hn|Hn].
  - now apply base_bitrate_of_text.
  - unfold base_bitrate_k. rewrite Hv.
    destruct n as [|q|q]; try lia. apply negative_bitrate_of_text.
Qed.

Lemma rate_text_round_trip_witness : base_bitrate_k profile_high = Normal 512.
Proof. apply (rate_text_round_trip profile_high 512). reflexivity. Defined.

(* ================================================================== *)
(** * More on the drain threads *)
(* ================================================================== *)

Lemma string_app_assoc (a b c : string) :
  ((a ++ b) ++ c = a ++ b ++ c)%string.
Proof. induction a as [|x a IH]; cbn [append]; [reflexivity|now rewrite IH]. Qed.

Lemma message_split (prefix x : string) :
  ("[" ++ prefix ++ "] " ++ x = ("[" ++ prefix ++ "] ") ++ x)%string.
Proof. now rewrite !string_app_assoc. Qed.

Lemma is_space_lower (c : ascii) : is_space (lower_ascii c) = is_space c.
Proof. destruct c as [[] [] [] [] [] [] [] []]; reflexivity. Qed.

Lemma lower_lstrip (s : string) : lower (lstrip s) = lstrip (lower s).
Proof.
  induction s as [|c s IH]; cbn [lstrip lower]; [reflexivity|].
  rewrite is_space_lower. now destruct (is_space c).
Qed.

Lemma lower_rstrip (s : string) : lower (rstrip s) = rstrip (lower s).
Proof.
  induction s as [|c s IH]; cbn [rstrip lower]; [reflexivity|].
  rewrite <- IH, is_space_lower.
  destruct (rstrip s); cbn [lower]; [now destruct (is_space c)|reflexivity].
Qed.

Lemma lower_strip (s : string) : lower (strip s) = strip (lower s).
Proof. unfold strip. now rewrite lower_rstrip, lower_lstrip. Qed.

Lemma rstrip_cons (z : ascii) (s : string) :
  is_space z = false -> rstrip (String z s) = String z (rstrip s).
Proof. intros Hz. cbn [rstrip]. rewrite Hz. now destruct (rstrip s). Qed.

Lemma rstrip_app (a b : string) :
  rstrip b <> EmptyString -> rstrip (a ++ b) = (a ++ rstrip b)%string.
Proof.
  intros Hb. induction a as [|c a IH]; cbn [append rstrip]; [reflexivity|].
  rewrite IH. destruct (a ++ rstrip b)%string eqn:E; [|reflexivity].
  destruct a; cbn in E; [congruence|discriminate].
Qed.

(** Stripping cannot cut into a part of the text that neither begins nor
    ends with white space. *)
Lemma substring_strip (a z : ascii) (m m' s : string) :
  is_space a = false -> is_space z = false ->
  String a m = (m' ++ String z EmptyString)%string ->
  Substring (String a m) s -> Substring (String a m) (strip s).
Proof.
  intros Ha Hz Hend (pre & post & ->). unfold strip.
  assert (Hl : exists pre', lstrip (pre ++ String a m ++ post)
                            = (pre' ++ String a m ++ post)%string).
  { induction pre as [|c pre IH]; cbn [append lstrip].
    - rewrite Ha. now exists EmptyString.
    - destruct (is_space c); [exact IH|]. now exists (String c pre). }
  destruct Hl as [pre' ->]. rewrite Hend.
  exists pre', (rstrip post).
  assert (Hr : rstrip (String z post) = String z (rstrip post))
    by now apply rstrip_cons.
  assert (Hassoc : forall q, (pre' ++ (m' ++ String z EmptyString) ++ q
                              = (pre' ++ m') ++ String z q)%string)
    by (intros q; now rewrite !string_app_assoc).
  rewrite !Hassoc. rewrite rstrip_app; rewrite Hr; [reflexivity|discriminate].
Qed.

Lemma substring_prepend (k pre s : string) :
  Substring k s -> Substring k (pre ++ s).
Proof.
  intros (a & b & ->). exists (pre ++ a)%string, b.
  now rewrite string_app_assoc.
Qed.

Ltac keyword_kept :=
  match goal with
  | H : contains ?k ?s = true |- Substring ?k (strip ?s) =>
      apply contains_spec in H;
      first
        [ exact (substring_strip "f" "=" "rame=" "frame" s
                   eq_refl eq_refl eq_refl H)
        | exact (substring_strip "s" "=" "peed=" "speed" s
                   eq_refl eq_refl eq_refl H)
        | exact (substring_strip "e" "r" "rror" "erro" s
                   eq_refl eq_refl eq_refl H)
        | exact (substring_strip "f" "d" "ailed" "faile" s
                   eq_refl eq_refl eq_refl H)
        | exact (substring_strip "n" "y" "o such file or directory"
                   "no such file or director" s eq_refl eq_refl eq_refl H)
        | exact (substring_strip "i" "t" "nvalid argument" "invalid argumen" s
                   eq_refl eq_refl eq_refl H) ]
  end.

(** X5.  The logged text shows why it has its level: the message of an INFO
    record contains [frame=] or [speed=], and the message of a WARNING record
    contains one of the four error keywords in some letter case, although the
    test is made on the raw line and the message holds the stripped line. *)
Theorem message_shows_cause (prefix line : string) :
  (fst (log_stream_line prefix line) = INFO ->
   ProgressMarker (snd (log_stream_line prefix line)))
  /\ (fst (log_stream_line prefix line) = WARNING ->
      ErrorKeyword (snd (log_stream_line prefix line))).
Proof.
  unfold log_stream_line.
  destruct (contains "frame=" line || contains "speed=" line) eqn:Hp.
  - cbn [fst snd]. split; [intros _|discriminate].
    apply orb_true_iff in Hp. unfold ProgressMarker.
    destruct Hp as [Hp|Hp]; [left|right];
      rewrite message_split; apply substring_prepend; keyword_kept.
  - destruct (contains "error" (lower line) || contains "failed" (lower line)
              || contains "no such file or directory" (lower line)
              || contains "invalid argument" (lower line)) eqn:He;
      cbn [fst snd]; (split; [discriminate|]); [intros _|discriminate].
    apply error_keyword_spec.
    rewrite message_split, lower_app, lower_strip.
    rewrite !orb_true_iff in He. rewrite !orb_true_iff.
    destruct He as [[[He|He]|He]|He];
      [left; left; left|left; left; right|left; right|right];
      apply contains_spec, substring_prepend; keyword_kept.
Qed.

Lemma enabled_iff_noteworthy (prefix line : string) :
  is_enabled (fst (log_stream_line prefix line)) = true
  <-> ProgressMarker line \/ ErrorKeyword line.
Proof.
  rewrite <- progress_marker_spec, <- error_keyword_spec.
  unfold log_stream_line.
  destruct (contains "frame=" line || contains "speed=" line);
    destruct (contains "error" (lower line) || contains "failed" (lower line)
              || contains "no such file or directory" (lower line)
              || contains "invalid argument" (lower line));
    cbn; intuition discriminate.
Qed.

(** X6.  With the root logger at INFO (line 9), a drain thread produces
    output exactly for the lines that contain a progress marker or an error
    keyword; every other line of the child is dropped. *)
Theorem only_noteworthy_lines_are_emitted (pipe : list string)
    (prefix : string) (r : log_record) :
  In r (emitted (log_stream_output pipe prefix)) <->
  exists line,
    In line pipe /\ r = log_stream_line prefix line
    /\ (ProgressMarker line \/ ErrorKeyword line).
Proof.
  unfold emitted, log_stream_output. rewrite filter_In, in_map_iff. split.
  - intros [(line & <- & Hin) Hen]. exists line.
    repeat split; [assumption|]. now apply enabled_iff_noteworthy in Hen.
  - intros (line & Hin & -> & Hn). split; [now exists line|].
    now apply enabled_iff_noteworthy.
Qed.

(* ================================================================== *)
(** * More on the supervisor *)
(* ================================================================== *)

(** ** How the [try] statement is put together *)

Section Statement.

Variable env : Env.
Variable cmd : list string.

Lemma supervise_normal (l lb : Locals) (rf : result unit)
    (tb tf : list event) :
  supervise_body env cmd (set_process None l) = (Normal tt, lb, tb) ->
  join_threads env lb = (rf, lb, tf) ->
  supervise env cmd l = (rf, lb, tb ++ tf).
Proof.
  intros Hb Hj. unfold supervise, bind, update, try_finally, try_except.
  rewrite Hb, Hj. cbn [prepend app]. now destruct rf as [[]|e].
Qed.

Lemma supervise_handled (l lb : Locals) (e : exn) (h : M unit)
    (r rf : result unit) (tb th tf : list event) :
  supervise_body env cmd (set_process None l) = (Raised e, lb, tb) ->
  handlers env e = Some h ->
  h lb = (r, lb, th) ->
  join_threads env lb = (rf, lb, tf) ->
  supervise env cmd l
  = (match rf with Normal _ => r | Raised e' => Raised e' end,
     lb, tb ++ th ++ tf).
Proof.
  intros Hb Hh Hr Hj. unfold supervise, bind, update, try_finally, try_except.
  rewrite Hb, Hh, Hr. cbn [prepend]. rewrite Hj.
  destruct rf; cbn [prepend app]; now rewrite <- app_assoc.
Qed.

Lemma handlers_total (e : exn) :
  handlers env e
  = Some (match e with
          | KeyboardInterrupt => on_keyboard_interrupt env
          | _ => on_exception env e
          end).
Proof. now destruct e. Qed.

(** The body when the child runs to its exit. *)
Lemma body_exits (l : Locals) (c : Z) :
  child_started env -> wait_195 env = Normal c ->
  supervise_body env cmd l
  = (Normal tt, started cmd l,
     [Call (Popen cmd) None; Call (ThreadStart STDOUT) None;
      Call (ThreadStart STDERR) None;
      Log INFO "FFmpegプロセスが実行中です。Ctrl+C で停止します。";
      Call (Wait None) None;
      Log INFO ("FFmpegプロセス終了。終了コード: " ++ str c)%string]).
Proof.
  intros (Hp & H1 & H2) Hw.
  unfold supervise_body, bind, call, update, log.
  rewrite Hp, H1, H2, Hw. reflexivity.
Qed.

(** The body when something after the spawn raises. *)
Lemma body_raising (l : Locals) (e : exn) :
  popen_176 env = Normal tt -> body_raises env e ->
  exists tb,
    supervise_body env cmd l = (Raised e, started cmd l, Call (Popen cmd) None :: tb)
    /\ forallb is_startup (calls tb) = true.
Proof.
  intros Hp H. unfold supervise_body, bind, call, update, log. rewrite Hp.
  destruct H as [H1|[[H1 H2]|(H1 & H2 & Hw)]].
  - rewrite H1. cbn. eexists. split; reflexivity.
  - rewrite H1, H2. cbn. eexists. split; reflexivity.
  - rewrite H1, H2, Hw. cbn. eexists. split; reflexivity.
Qed.

(** The clause [except Exception]. *)
Lemma exception_clause (l : Locals) (e : exn) :
  process l <> None ->
  on_exception env e l
  = match poll_212 env with
    | Normal None =>
        (match kill_213 env with Normal _ => Normal tt | Raised e' => Raised e' end,
         l,
         [Log ERROR ("FFmpeg実行中に予期せぬエラーが発生しました: " ++ exn_text env e)%string;
          Call Poll None;
          Call Kill (match kill_213 env with Normal _ => None | Raised e' => Some e' end)])
    | Normal (Some _) =>
        (Normal tt, l,
         [Log ERROR ("FFmpeg実行中に予期せぬエラーが発生しました: " ++ exn_text env e)%string;
          Call Poll None])
    | Raised e' =>
        (Raised e', l,
         [Log ERROR ("FFmpeg実行中に予期せぬエラーが発生しました: " ++ exn_text env e)%string;
          Call Poll (Some e')])
    end.
Proof.
  intros Hproc.
  unfold on_exception, still_running, when, bind, call, log, get, ret.
  destruct (process l); [|congruence].
  destruct (poll_212 env) as [[c|]|e']; cbn; try reflexivity.
  destruct (kill_213 env) as [[]|e']; reflexivity.
Qed.

(** The clause [except KeyboardInterrupt] when the child is already gone. *)
Lemma interrupt_child_gone (l : Locals) (c : Z) :
  process l <> None ->
  poll_201 env = Normal (Some c) ->
  on_keyboard_interrupt env l
  = (Normal tt, l,
     [Log INFO "Ctrl+C が検出されました。FFmpegプロセスを終了します。";
      Call Poll None; stopped_record]).
Proof.
  intros Hproc Hpoll.
  unfold on_keyboard_interrupt, still_running, when, bind, call, log, get, ret.
  destruct (process l); [|congruence].
  rewrite Hpoll. reflexivity.
Qed.

(** The clause [except KeyboardInterrupt] when there is no child. *)
Lemma interrupt_no_child (l : Locals) :
  process l = None ->
  on_keyboard_interrupt env l
  = (Normal tt, l,
     [Log INFO "Ctrl+C が検出されました。FFmpegプロセスを終了します。";
      stopped_record]).
Proof.
  intros Hproc.
  unfold on_keyboard_interrupt, still_running, when, bind, call, log, get, ret.
  now rewrite Hproc.
Qed.

(** The clause [except Exception] when there is no child. *)
Lemma exception_no_child (l : Locals) (e : exn) :
  process l = None ->
  on_exception env e l
  = (Normal tt, l,
     [Log ERROR ("FFmpeg実行中に予期せぬエラーが発生しました: " ++ exn_text env e)%string]).
Proof.
  intros Hproc.
  unfold on_exception, still_running, when, bind, call, log, get, ret.
  now rewrite Hproc.
Qed.

End Statement.

(** ** Whole traces *)

(** The loop of lines 164-170 logs the records of each profile, in order. *)
Lemma log_profiles_trace (ps : list Profile) (l : Locals) :
  log_profiles ps l = (Normal tt, l, flat_map profile_records ps).
Proof.
  induction ps as [|p ps IH]; cbn [log_profiles flat_map]; [reflexivity|].
  unfold profile_records.
  destruct (output_fps p), (x265_extra_opts p);
    unfold bind, log, ret; rewrite IH; reflexivity.
Qed.

(** A run with a resolved name: the warnings, the preamble, then the
    supervision of the compiled command. *)
Lemma run_started (env : Env) (names : list string) (cmd : list string) :
  resolved ALL_STREAM_PROFILES names <> [] ->
  build_ffmpeg_command RTSP_INPUT_URL
    (resolved ALL_STREAM_PROFILES names) MEDIAMTX_RTSP_BASE_URL = Normal cmd ->
  run env names
  = prepend (warnings ALL_STREAM_PROFILES names
             ++ preamble (resolved ALL_STREAM_PROFILES names) cmd)
      (supervise env cmd (set_ffmpeg_cmd cmd no_locals)).
Proof.
  intros Hne Hcmd. unfold run, run_ffmpeg_transcoder.
  rewrite (bind_normal _ _ _ _ _ _ (select_profiles_acc _ _ _ _)).
  cbn [app].
  destruct (resolved ALL_STREAM_PROFILES names) as [|p ps] eqn:Hres;
    [congruence|].
  unfold bind at 1, lift. rewrite Hcmd.
  unfold bind at 1, update.
  unfold bind at 1, log.
  unfold bind at 1.
  unfold bind at 1.
  unfold bind at 1. rewrite log_profiles_trace.
  unfold bind at 1.
  destruct (supervise env cmd (set_ffmpeg_cmd cmd no_locals)) as [[r l] t'].
  unfold prepend, preamble. f_equal.
  repeat (rewrite <- ?app_assoc; cbn [app]). reflexivity.
Qed.

(** The [finally] block logs nothing. *)
Lemma join_threads_events (env : Env) (l : Locals) :
  forallb is_teardown_call (trace_of (join_threads env l)) = true.
Proof.
  unfold join_threads, read, when, bind, call, ret.
  destruct (stdout_thread l); [|reflexivity].
  destruct (is_alive_215 env) as [[|]|e1], (join_216 env) as [[]|e2]; cbn;
    destruct (stderr_thread l);
    destruct (is_alive_217 env) as [[|]|e3], (join_218 env) as [[]|e4];
    reflexivity.
Qed.

(** The body when something after the spawn raises: between the spawn and
    the exception there are thread starts, the wait and at most the record
    of line 194. *)
Lemma body_raising_events (env : Env) (cmd : list string) (l : Locals)
    (e : exn) :
  popen_176 env = Normal tt -> body_raises env e ->
  exists tb,
    supervise_body env cmd l
    = (Raised e, started cmd l, Call (Popen cmd) None :: tb)
    /\ forallb is_startup_event tb = true.
Proof.
  intros Hp H. unfold supervise_body, bind, call, update, log. rewrite Hp.
  destruct H as [H1|[[H1 H2]|(H1 & H2 & Hw)]].
  - rewrite H1. cbn. eexists. split; reflexivity.
  - rewrite H1, H2. cbn. eexists. split; reflexivity.
  - rewrite H1, H2, Hw. cbn. eexists. split; reflexivity.
Qed.

(** ** Runs that end without Ctrl+C *)

(** X7.  When the child exits by itself, with whatever code, the run returns
    normally and its events are, in order: the warnings and the preamble
    (which depend on the requested names only), the spawn, the two thread
    starts, the record of line 194, the wait, one INFO record with the exit
    code, and then [is_alive] and [join] calls only.  The exit code shows in
    that one record and nowhere else; the child is neither polled nor
    signalled. *)
Theorem exit_code_is_only_logged (env : Env) (names : list string) (c : Z) :
  resolved ALL_STREAM_PROFILES names <> [] ->
  child_started env ->
  wait_195 env = Normal c ->
  teardown_returns env ->
  exists cmd teardown,
    build_ffmpeg_command RTSP_INPUT_URL
      (resolved ALL_STREAM_PROFILES names) MEDIAMTX_RTSP_BASE_URL = Normal cmd
    /\ forallb is_teardown_call teardown = true
    /\ outcome_of (run env names) = Normal tt
    /\ trace_of (run env names)
       = warnings ALL_STREAM_PROFILES names
         ++ preamble (resolved ALL_STREAM_PROFILES names) cmd
         ++ [Call (Popen cmd) None;
             Call (ThreadStart STDOUT) None;
             Call (ThreadStart STDERR) None;
             Log INFO "FFmpegプロセスが実行中です。Ctrl+C で停止します。";
             Call (Wait None) None;
             Log INFO ("FFmpegプロセス終了。終了コード: " ++ str c)%string]
         ++ teardown.
Proof.
  intros Hne Hst Hw Htear.
  destruct (registry_selection_compiles names) as [cmd Hcmd].
  pose proof (run_started env names cmd Hne Hcmd) as Hrun.
  set (l := started cmd (set_ffmpeg_cmd cmd no_locals)).
  destruct (join_threads_bound env l) as (rf & tf & Hj & _ & Hr);
    [discriminate|discriminate|].
  specialize (Hr Htear). subst rf.
  pose proof (join_threads_events env l) as Htf.
  rewrite Hj in Htf. cbn [trace_of snd] in Htf.
  pose proof (supervise_normal env cmd _ _ _ _ _
                (body_exits env cmd _ c Hst Hw) Hj) as Hsup.
  exists cmd, tf. split; [exact Hcmd|]. split; [exact Htf|].
  rewrite Hrun, Hsup, trace_of_prepend, outcome_of_prepend.
  unfold trace_of, outcome_of. cbn [fst snd]. split; [reflexivity|].
  now rewrite <- app_assoc.
Qed.

Lemma exit_code_is_only_logged_witness :
  exists cmd teardown,
    build_ffmpeg_command RTSP_INPUT_URL
      (resolved ALL_STREAM_PROFILES ["quality"]) MEDIAMTX_RTSP_BASE_URL
    = Normal cmd
    /\ forallb is_teardown_call teardown = true
    /\ outcome_of (run env_exit_3 ["quality"]) = Normal tt
    /\ trace_of (run env_exit_3 ["quality"])
       = warnings ALL_STREAM_PROFILES ["quality"]
         ++ preamble (resolved ALL_STREAM_PROFILES ["quality"]) cmd
         ++ [Call (Popen cmd) None;
             Call (ThreadStart STDOUT) None;
             Call (ThreadStart STDERR) None;
             Log INFO "FFmpegプロセスが実行中です。Ctrl+C で停止します。";
             Call (Wait None) None;
             Log INFO ("FFmpegプロセス終了。終了コード: " ++ str 3)%string]
         ++ teardown.
Proof.
  apply (exit_code_is_only_logged env_exit_3 ["quality"] 3).
  - simpl. discriminate.
  - unfold child_started. simpl. repeat split; reflexivity.
  - reflexivity.
  - unfold teardown_returns. simpl.
    repeat split; try reflexivity; exists false; reflexivity.
Defined.

(** X8.  An [Exception] raised after the spawn, by a thread start or by the
    wait, is logged in one ERROR record that carries its text, and is
    swallowed.  The events of the run are: the warnings and the preamble,
    the spawn, thread starts and the wait with nothing but INFO records in
    between, the ERROR record, a poll, and
    - if the child still runs, [kill] at once, with no [terminate] before
      and no wait after;
    - if it has exited, nothing;
    and then [is_alive] and [join] calls only.  When the kill and the thread
    joins return, the run returns normally. *)
Theorem error_after_spawn_forces_kill (env : Env) (names : list string)
    (e : exn) :
  resolved ALL_STREAM_PROFILES names <> [] ->
  popen_176 env = Normal tt ->
  body_raises env e ->
  is_Exception e = true ->
  exists cmd body teardown,
    build_ffmpeg_command RTSP_INPUT_URL
      (resolved ALL_STREAM_PROFILES names) MEDIAMTX_RTSP_BASE_URL = Normal cmd
    /\ forallb is_startup_event body = true
    /\ forallb is_teardown_call teardown = true
    /\ (poll_212 env = Normal None ->
        (exists r,
           trace_of (run env names)
           = warnings ALL_STREAM_PROFILES names
             ++ preamble (resolved ALL_STREAM_PROFILES names) cmd
             ++ Call (Popen cmd) None :: body
             ++ [Log ERROR ("FFmpeg実行中に予期せぬエラーが発生しました: "
                            ++ exn_text env e)%string;
                 Call Poll None; Call Kill r]
             ++ teardown)
        /\ (kill_213 env = Normal tt -> teardown_returns env ->
            outcome_of (run env names) = Normal tt))
    /\ (forall c, poll_212 env = Normal (Some c) ->
        trace_of (run env names)
        = warnings ALL_STREAM_PROFILES names
          ++ preamble (resolved ALL_STREAM_PROFILES names) cmd
          ++ Call (Popen cmd) None :: body
          ++ [Log ERROR ("FFmpeg実行中に予期せぬエラーが発生しました: "
                         ++ exn_text env e)%string;
              Call Poll None]
          ++ teardown
        /\ (teardown_returns env -> outcome_of (run env names) = Normal tt)).
Proof.
  intros Hne Hp Hraise He.
  destruct (registry_selection_compiles names) as [cmd Hcmd].
  pose proof (run_started env names cmd Hne Hcmd) as Hrun.
  set (l := started cmd (set_ffmpeg_cmd cmd no_locals)).
  assert (Hproc : process l <> None) by discriminate.
  destruct (join_threads_bound env l) as (rf & tf & Hj & _ & Hr);
    [discriminate|discriminate|].
  pose proof (join_threads_events env l) as Htf.
  rewrite Hj in Htf. cbn [trace_of snd] in Htf.
  destruct (body_raising_events env cmd
              (set_process None (set_ffmpeg_cmd cmd no_locals)) e Hp Hraise)
    as (tb & Hb & Htb).
  assert (Hh : handlers env e = Some (on_exception env e))
    by (destruct e; try reflexivity; discriminate).
  pose proof (exception_clause env l e Hproc) as Hex.
  exists cmd, tb, tf.
  split; [exact Hcmd|]. split; [exact Htb|]. split; [exact Htf|]. split.
  - intros Hpoll. rewrite Hpoll in Hex.
    pose proof (supervise_handled env cmd _ _ _ _ _ _ _ _ _ Hb Hh Hex Hj)
      as Hsup.
    rewrite Hrun, Hsup, trace_of_prepend, outcome_of_prepend.
    unfold trace_of, outcome_of. cbn [fst snd]. split.
    + eexists. rewrite <- !app_assoc. cbn [app]. reflexivity.
    + intros Hk Ht. rewrite (Hr Ht), Hk. reflexivity.
  - intros c Hpoll. rewrite Hpoll in Hex.
    pose proof (supervise_handled env cmd _ _ _ _ _ _ _ _ _ Hb Hh Hex Hj)
      as Hsup.
    rewrite Hrun, Hsup, trace_of_prepend, outcome_of_prepend.
    unfold trace_of, outcome_of. cbn [fst snd]. split.
    + rewrite <- !app_assoc. cbn [app]. reflexivity.
    + intros Ht. rewrite (Hr Ht). reflexivity.
Qed.

Lemma error_after_spawn_forces_kill_witness :
  exists cmd body teardown,
    build_ffmpeg_command RTSP_INPUT_URL
      (resolved ALL_STREAM_PROFILES ["high"]) MEDIAMTX_RTSP_BASE_URL = Normal cmd
    /\ forallb is_startup_event body = true
    /\ forallb is_teardown_call teardown = true
    /\ (poll_212 env_no_thread = Normal None ->
        (exists r,
           trace_of (run env_no_thread ["high"])
           = warnings ALL_STREAM_PROFILES ["high"]
             ++ preamble (resolved ALL_STREAM_PROFILES ["high"]) cmd
             ++ Call (Popen cmd) None :: body
             ++ [Log ERROR ("FFmpeg実行中に予期せぬエラーが発生しました: "
                            ++ exn_text env_no_thread RuntimeError)%string;
                 Call Poll None; Call Kill r]
             ++ teardown)
        /\ (kill_213 env_no_thread = Normal tt ->
            teardown_returns env_no_thread ->
            outcome_of (run env_no_thread ["high"]) = Normal tt))
    /\ (forall c, poll_212 env_no_thread = Normal (Some c) ->
        trace_of (run env_no_thread ["high"])
        = warnings ALL_STREAM_PROFILES ["high"]
          ++ preamble (resolved ALL_STREAM_PROFILES ["high"]) cmd
          ++ Call (Popen cmd) None :: body
          ++ [Log ERROR ("FFmpeg実行中に予期せぬエラーが発生しました: "
                         ++ exn_text env_no_thread RuntimeError)%string;
              Call Poll None]
          ++ teardown
        /\ (teardown_returns env_no_thread ->
            outcome_of (run env_no_thread ["high"]) = Normal tt)).
Proof.
  apply (error_after_spawn_forces_kill env_no_thread ["high"] RuntimeError).
  - simpl. discriminate.
  - reflexivity.
  - unfold body_raises. simpl. right. left. split; reflexivity.
  - reflexivity.
Defined.

(** X9.  Ctrl+C after the spawn when the child has already exited: the
    child is polled and nothing more, neither [terminate] nor [kill] is
    called, and the run returns normally once the threads are joined. *)
Theorem interrupt_after_exit_signals_nothing (env : Env) (names : list string)
    (c : Z) :
  resolved ALL_STREAM_PROFILES names <> [] ->
  popen_176 env = Normal tt ->
  body_raises env KeyboardInterrupt ->
  poll_201 env = Normal (Some c) ->
  teardown_returns env ->
  exists cmd startup teardown,
    build_ffmpeg_command RTSP_INPUT_URL
      (resolved ALL_STREAM_PROFILES names) MEDIAMTX_RTSP_BASE_URL = Normal cmd
    /\ forallb is_startup startup = true
    /\ forallb is_teardown teardown = true
    /\ calls (trace_of (run env names))
       = Popen cmd :: startup ++ [Poll] ++ teardown
    /\ outcome_of (run env names) = Normal tt.
Proof.
  intros Hne Hp Hraise Hpoll Htear.
  destruct (run_supervises env names Hne) as (cmd & pre & Hcmd & Hq & Hrun).
  set (l := started cmd (set_ffmpeg_cmd cmd no_locals)).
  assert (Hproc : process l <> None) by discriminate.
  destruct (join_threads_bound env l) as (rf & tf & Hj & Htf & Hr);
    [discriminate|discriminate|].
  specialize (Hr Htear). subst rf.
  destruct (body_raising env cmd (set_process None (set_ffmpeg_cmd cmd no_locals))
              _ Hp Hraise) as (tb & Hb & Htb).
  pose proof (supervise_handled env cmd _ _ _ _ _ _ _ _ _ Hb eq_refl
                (interrupt_child_gone env l c Hproc Hpoll) Hj) as Hsup.
  exists cmd, (calls tb), (calls tf).
  split; [exact Hcmd|]. split; [exact Htb|]. split; [exact Htf|].
  rewrite Hrun, Hsup, trace_of_prepend, outcome_of_prepend.
  unfold trace_of, outcome_of. cbn [fst snd]. split; [|reflexivity].
  rewrite !calls_app, Hq. cbn [calls app stopped_record].
  rewrite ?calls_app. reflexivity.
Qed.

Lemma interrupt_after_exit_signals_nothing_witness :
  exists cmd startup teardown,
    build_ffmpeg_command RTSP_INPUT_URL
      (resolved ALL_STREAM_PROFILES ["low"]) MEDIAMTX_RTSP_BASE_URL = Normal cmd
    /\ forallb is_startup startup = true
    /\ forallb is_teardown teardown = true
    /\ calls (trace_of (run env_gone ["low"]))
       = Popen cmd :: startup ++ [Poll] ++ teardown
    /\ outcome_of (run env_gone ["low"]) = Normal tt.
Proof.
  apply (interrupt_after_exit_signals_nothing env_gone ["low"] 255).
  - simpl. discriminate.
  - reflexivity.
  - unfold body_raises. simpl. right. right. repeat split; reflexivity.
  - reflexivity.
  - unfold teardown_returns. simpl.
    repeat split; try reflexivity; exists false; reflexivity.
Defined.

(** X10.  Whatever [Popen] raises, Ctrl+C included, the run makes no other
    call and ends with the [UnboundLocalError] of the [finally] block: a
    [KeyboardInterrupt] delivered during the spawn does not reach the caller
    as such. *)
Theorem spawn_exception_is_replaced (env : Env) (names : list string)
    (e : exn) :
  resolved ALL_STREAM_PROFILES names <> [] ->
  popen_176 env = Raised e ->
  exists cmd,
    build_ffmpeg_command RTSP_INPUT_URL
      (resolved ALL_STREAM_PROFILES names) MEDIAMTX_RTSP_BASE_URL = Normal cmd
    /\ calls (trace_of (run env names)) = [Popen cmd]
    /\ outcome_of (run env names) = Raised (UnboundLocalError "stdout_thread").
Proof.
  intros Hne Hp.
  destruct (run_supervises env names Hne) as (cmd & pre & Hcmd & Hq & Hrun).
  set (l := set_process None (set_ffmpeg_cmd cmd no_locals)).
  pose proof (body_spawn_failure env cmd l e Hp) as Hb.
  pose proof (join_threads_unbound env l eq_refl) as Hj.
  assert (Hh : exists th,
             (match e with
              | KeyboardInterrupt => on_keyboard_interrupt env
              | _ => on_exception env e
              end) l = (Normal tt, l, th) /\ calls th = []).
  { destruct e;
      first [ rewrite (interrupt_no_child env l eq_refl)
            | rewrite (exception_no_child env l _ eq_refl) ];
      eexists; split; reflexivity. }
  destruct Hh as (th & Hh & Hth).
  pose proof (supervise_handled env cmd _ _ _ _ _ _ _ _ _ Hb
                (handlers_total env e) Hh Hj) as Hsup.
  exists cmd. split; [exact Hcmd|].
  rewrite Hrun, Hsup, trace_of_prepend, outcome_of_prepend.
  unfold trace_of, outcome_of. cbn [fst snd]. split; [|reflexivity].
  rewrite !calls_app, Hq, Hth. reflexivity.
Qed.

Lemma spawn_exception_is_replaced_witness :
  exists cmd,
    build_ffmpeg_command RTSP_INPUT_URL
      (resolved ALL_STREAM_PROFILES ["high"; "low"]) MEDIAMTX_RTSP_BASE_URL
    = Normal cmd
    /\ calls (trace_of (run env_early_interrupt ["high"; "low"])) = [Popen cmd]
    /\ outcome_of (run env_early_interrupt ["high"; "low"])
       = Raised (UnboundLocalError "stdout_thread").
Proof.
  apply (spawn_exception_is_replaced env_early_interrupt ["high"; "low"]
           KeyboardInterrupt).
  - simpl. discriminate.
  - reflexivity.
Defined.

(** ** Facts about every event of a statement *)

Lemma forallb_prepend {A} (P : event -> bool) (t : list event)
    (x : result A * Locals * list event) :
  forallb P t = true -> forallb P (trace_of x) = true ->
  forallb P (trace_of (prepend t x)) = true.
Proof.
  intros Ht Hx. rewrite trace_of_prepend, forallb_app. now rewrite Ht, Hx.
Qed.

Lemma always_ret {A} (P : event -> bool) (a : A) : Always P (ret a).
Proof. intros l. reflexivity. Qed.

Lemma always_lift {A} (P : event -> bool) (r : result A) : Always P (lift r).
Proof. intros l. reflexivity. Qed.

Lemma always_get {A} (P : event -> bool) (f : Locals -> A) : Always P (get f).
Proof. intros l. reflexivity. Qed.

Lemma always_update (P : event -> bool) (f : Locals -> Locals) :
  Always P (update f).
Proof. intros l. reflexivity. Qed.

Lemma always_read {A} (P : event -> bool) (var : string)
    (f : Locals -> option A) :
  Always P (read var f).
Proof. intros l. unfold read. now destruct (f l). Qed.

Lemma always_log (P : event -> bool) (lvl : level) (msg : string) :
  P (Log lvl msg) = true -> Always P (log lvl msg).
Proof. intros H l. cbn. now rewrite H. Qed.

Lemma always_call {A} (P : event -> bool) (a : action) (answer : result A) :
  (forall r, P (Call a r) = true) -> Always P (call a answer).
Proof. intros H l. unfold call. destruct answer; cbn; now rewrite H. Qed.

Lemma always_bind {A B} (P : event -> bool) (m : M A) (k : A -> M B) :
  Always P m -> (forall a, Always P (k a)) -> Always P (bind m k).
Proof.
  intros Hm Hk l. unfold bind. specialize (Hm l).
  destruct (m l) as [[[a|e] l1] t1]; cbn [trace_of snd] in Hm |- *.
  - apply forallb_prepend; [exact Hm|apply Hk].
  - exact Hm.
Qed.

Lemma always_when (P : event -> bool) (b : bool) (m : M unit) :
  Always P m -> Always P (when b m).
Proof. intros H. destruct b; [exact H|apply always_ret]. Qed.

Lemma always_try_except {A} (P : event -> bool) (body : M A)
    (handler : exn -> option (M A)) :
  Always P body ->
  (forall e h, handler e = Some h -> Always P h) ->
  Always P (try_except body handler).
Proof.
  intros Hb Hh l. unfold try_except. specialize (Hb l).
  destruct (body l) as [[[a|e] l1] t1]; cbn [trace_of snd] in Hb |- *;
    [exact Hb|].
  destruct (handler e) as [h|] eqn:He; [|exact Hb].
  apply forallb_prepend; [exact Hb|apply (Hh e h He)].
Qed.

Lemma always_try_finally {A} (P : event -> bool) (body : M A) (fin : M unit) :
  Always P body -> Always P fin -> Always P (try_finally body fin).
Proof.
  intros Hb Hf l. unfold try_finally. specialize (Hb l).
  destruct (body l) as [[r l1] t1]. specialize (Hf l1).
  destruct (fin l1) as [[[u|e] l2] t2]; cbn [trace_of snd] in *;
    rewrite forallb_app; now rewrite Hb, Hf.
Qed.

Section EveryRun.

Variable P : event -> bool.
Hypothesis P_control :
  forall a r, is_spawn a = false -> is_teardown a = false ->
              P (Call a r) = true.
Hypothesis P_info : forall msg, P (Log INFO msg) = true.
Hypothesis P_warning : forall msg, P (Log WARNING msg) = true.
Hypothesis P_error : forall msg, P (Log ERROR msg) = true.

Ltac quiet :=
  repeat first
    [ apply always_ret | apply always_lift | apply always_get
    | apply always_update | apply always_read
    | apply always_log;
      first [apply P_info | apply P_warning | apply P_error]
    | apply always_call; intros ?; apply P_control; reflexivity
    | apply always_when
    | apply always_try_finally
    | apply always_bind; [|intros ?]
    | match goal with
      | |- Always _ (match ?x with _ => _ end) => destruct x
      end ].

Lemma always_select_profiles (registry : list Profile) (names : list string) :
  forall acc, Always P (select_profiles registry names acc).
Proof.
  induction names as [|n names IH]; intros acc; cbn [select_profiles].
  - apply always_ret.
  - destruct (find_profile registry n); [apply IH|].
    apply always_bind; [apply always_log, P_warning|intros _; apply IH].
Qed.

Lemma always_log_profiles (ps : list Profile) : Always P (log_profiles ps).
Proof.
  induction ps as [|p ps IH]; cbn [log_profiles]; [apply always_ret|].
  quiet; exact IH.
Qed.

Lemma always_on_timeout (env : Env) : Always P (on_timeout env).
Proof. unfold on_timeout. quiet. Qed.

Lemma always_on_keyboard_interrupt (env : Env) :
  Always P (on_keyboard_interrupt env).
Proof.
  unfold on_keyboard_interrupt, still_running. quiet.
  apply always_try_except; [quiet|].
  intros e h He. destruct e; try discriminate.
  injection He as <-. apply always_on_timeout.
Qed.

Lemma always_on_exception (env : Env) (e : exn) :
  Always P (on_exception env e).
Proof. unfold on_exception, still_running. quiet. Qed.

Lemma always_handlers (env : Env) (e : exn) (h : M unit) :
  handlers env e = Some h -> Always P h.
Proof.
  rewrite handlers_total. intros [= <-].
  destruct e;
    first [apply always_on_keyboard_interrupt | apply always_on_exception].
Qed.

Lemma always_join_threads (env : Env) :
  (forall a r, is_teardown a = true -> P (Call a r) = true) ->
  Always P (join_threads env).
Proof.
  intros Ht. unfold join_threads.
  repeat first
    [ apply always_read | apply always_when
    | apply always_call; intros ?; apply Ht; reflexivity
    | apply always_bind; [|intros ?] ].
Qed.

(** The body after the spawn: lines 178-197. *)
Lemma always_after_spawn (env : Env) (cmd : list string) (l : Locals) :
  exists tag rest,
    trace_of (supervise_body env cmd l) = Call (Popen cmd) tag :: rest
    /\ forallb P rest = true.
Proof.
  unfold supervise_body, bind at 1, call at 1.
  destruct (popen_176 env) as [[]|e].
  - match goal with
    | |- context [prepend _ (?m l)] =>
        assert (H : Always P m) by quiet;
        specialize (H l); destruct (m l) as [[r l1] t1]
    end.
    exists None, t1. cbn [prepend app trace_of snd] in *.
    split; [reflexivity|exact H].
  - exists (Some e), []. split; reflexivity.
Qed.

End EveryRun.

(** ** Statements that leave the locals alone *)

Lemma keeps_ret {A} (a : A) : Keeps (ret a).
Proof. intros l. reflexivity. Qed.

Lemma keeps_get {A} (f : Locals -> A) : Keeps (get f).
Proof. intros l. reflexivity. Qed.

Lemma keeps_log (lvl : level) (msg : string) : Keeps (log lvl msg).
Proof. intros l. reflexivity. Qed.

Lemma keeps_call {A} (a : action) (answer : result A) : Keeps (call a answer).
Proof. intros l. unfold call. now destruct answer. Qed.

Lemma keeps_bind {A B} (m : M A) (k : A -> M B) :
  Keeps m -> (forall a, Keeps (k a)) -> Keeps (bind m k).
Proof.
  intros Hm Hk l. unfold bind. specialize (Hm l).
  destruct (m l) as [[[a|e] l1] t1]; cbn [locals_of fst snd] in Hm; subst l1.
  - rewrite locals_of_prepend. apply Hk.
  - reflexivity.
Qed.

Lemma keeps_when (b : bool) (m : M unit) : Keeps m -> Keeps (when b m).
Proof. intros H. destruct b; [exact H|apply keeps_ret]. Qed.

Lemma keeps_try_except {A} (body : M A) (handler : exn -> option (M A)) :
  Keeps body -> (forall e h, handler e = Some h -> Keeps h) ->
  Keeps (try_except body handler).
Proof.
  intros Hb Hh l. unfold try_except. specialize (Hb l).
  destruct (body l) as [[[a|e] l1] t1]; cbn [locals_of fst snd] in Hb; subst l1;
    [reflexivity|].
  destruct (handler e) as [h|] eqn:He; [|reflexivity].
  rewrite locals_of_prepend. apply (Hh e h He).
Qed.

Ltac keeps :=
  repeat first
    [ apply keeps_ret | apply keeps_get | apply keeps_log | apply keeps_call
    | apply keeps_when
    | apply keeps_bind; [|intros ?]
    | match goal with
      | |- Keeps (match ?x with _ => _ end) => destruct x
      end ].

Lemma keeps_on_keyboard_interrupt (env : Env) :
  Keeps (on_keyboard_interrupt env).
Proof.
  unfold on_keyboard_interrupt, still_running. keeps.
  apply keeps_try_except; [keeps|].
  intros e h He. destruct e; try discriminate.
  injection He as <-. unfold on_timeout. keeps.
Qed.

Lemma keeps_on_exception (env : Env) (e : exn) : Keeps (on_exception env e).
Proof. unfold on_exception, still_running. keeps. Qed.

Lemma keeps_handlers (env : Env) (e : exn) (h : M unit) :
  handlers env e = Some h -> Keeps h.
Proof.
  rewrite handlers_total. intros [= <-].
  destruct e;
    first [apply keeps_on_keyboard_interrupt | apply keeps_on_exception].
Qed.

(** The three phases of every supervision: the body, the clause that
    handles its exception, the [finally] block; the latter two see the locals
    as the body left them. *)
Lemma supervise_phases (env : Env) (cmd : list string) (l : Locals) :
  trace_of (supervise env cmd l)
  = trace_of (supervise_body env cmd (set_process None l))
    ++ handler_trace env (supervise_body env cmd (set_process None l))
    ++ trace_of (join_threads env
                   (locals_of (supervise_body env cmd (set_process None l)))).
Proof.
  unfold supervise, bind, update, try_finally, try_except, handler_trace.
  destruct (supervise_body env cmd (set_process None l)) as [[[[]|e] lb] tb];
    cbn [outcome_of locals_of trace_of fst snd prepend app].
  - destruct (join_threads env lb) as [[[u|e] l2] tf]; reflexivity.
  - rewrite handlers_total.
    pose proof (keeps_handlers env e _ (handlers_total env e) lb) as Hk.
    destruct ((match e with
               | KeyboardInterrupt => on_keyboard_interrupt env
               | _ => on_exception env e
               end) lb) as [[rh lh] th].
    cbn [locals_of fst snd] in Hk. subst lh. cbn [prepend trace_of snd].
    destruct (join_threads env lb) as [[[u|e'] l2] tf];
      cbn [trace_of snd]; now rewrite app_assoc.
Qed.

(** The locals the body leaves: unchanged if the spawn fails, with the child
    and both threads bound if it succeeds. *)
Lemma body_locals (env : Env) (cmd : list string) (l : Locals) :
  locals_of (supervise_body env cmd l)
  = match popen_176 env with
    | Normal _ => started cmd l
    | Raised _ => l
    end.
Proof.
  unfold supervise_body, bind, call, update, log.
  destruct (popen_176 env) as [[]|e]; [|reflexivity].
  destruct (start_191 env) as [[]|e1]; [|reflexivity].
  destruct (start_192 env) as [[]|e2]; [|reflexivity].
  destruct (wait_195 env) as [c|e3]; reflexivity.
Qed.

(** ** Every run *)

Lemma forallb_on_calls (Q : action -> bool) (t : list event) :
  forallb (on_calls Q) t = forallb Q (calls t).
Proof.
  induction t as [|[lvl msg|a r] t IH]; cbn [forallb calls on_calls];
    [reflexivity|exact IH|now rewrite IH].
Qed.

Lemma always_handler_trace (P : event -> bool) (env : Env)
    (b : result unit * Locals * list event) :
  (forall e h, handlers env e = Some h -> Always P h) ->
  forallb P (handler_trace env b) = true.
Proof.
  intros H. unfold handler_trace.
  destruct (outcome_of b) as [u|e]; [reflexivity|].
  destruct (handlers env e) as [h|] eqn:He; [|reflexivity].
  apply (H e h He).
Qed.

(** A supervision is a spawn followed by events that pass any test passed
    by log records above DEBUG and by calls other than a spawn. *)
Lemma supervise_shape (P : event -> bool) (env : Env) (cmd : list string)
    (l : Locals) :
  (forall a r, is_spawn a = false -> P (Call a r) = true) ->
  (forall msg, P (Log INFO msg) = true) ->
  (forall msg, P (Log WARNING msg) = true) ->
  (forall msg, P (Log ERROR msg) = true) ->
  exists tag rest,
    trace_of (supervise env cmd l) = Call (Popen cmd) tag :: rest
    /\ forallb P rest = true.
Proof.
  intros Hc Hi Hw He. rewrite supervise_phases.
  destruct (always_after_spawn P (fun a r Hs _ => Hc a r Hs) Hi
              env cmd (set_process None l)) as (tag & rest & -> & Hrest).
  exists tag, (rest
               ++ handler_trace env (supervise_body env cmd (set_process None l))
               ++ trace_of (join_threads env
                    (locals_of (supervise_body env cmd (set_process None l))))).
  split; [reflexivity|].
  rewrite !forallb_app, Hrest. cbn [andb].
  rewrite always_handler_trace.
  - cbn [andb]. apply always_join_threads.
    intros a r Ht. apply Hc. now destruct a.
  - intros e h Hh.
    apply (always_handlers P (fun a r Hs _ => Hc a r Hs) Hi Hw He env e h Hh).
Qed.

Lemma run_unresolved (env : Env) (names : list string) :
  resolved ALL_STREAM_PROFILES names = [] ->
  run env names
  = (Normal tt, no_locals,
     warnings ALL_STREAM_PROFILES names ++ [no_valid_profiles_record]).
Proof.
  intros Hres. unfold run, run_ffmpeg_transcoder.
  rewrite (bind_normal _ _ _ _ _ _ (select_profiles_acc _ _ _ _)).
  cbn [app]. now rewrite Hres.
Qed.

(** X11.  No retry and nothing before the spawn: in every run, whatever the
    operating system answers, either no call is made at all or the first
    call is the one [Popen], with the command compiled from the resolved
    profiles, and no later call is a spawn. *)
Theorem at_most_one_spawn (env : Env) (names : list string) :
  calls (trace_of (run env names)) = []
  \/ exists cmd rest,
       build_ffmpeg_command RTSP_INPUT_URL
         (resolved ALL_STREAM_PROFILES names) MEDIAMTX_RTSP_BASE_URL
       = Normal cmd
       /\ calls (trace_of (run env names)) = Popen cmd :: rest
       /\ forallb (fun a => negb (is_spawn a)) rest = true.
Proof.
  destruct (resolved ALL_STREAM_PROFILES names) as [|p ps] eqn:Hres.
  - left. rewrite (run_unresolved env names Hres). unfold trace_of. cbn [snd].
    now rewrite calls_app, warnings_quiet.
  - right.
    destruct (run_supervises env names) as (cmd & pre & Hcmd & Hq & Hrun);
      [rewrite Hres; discriminate|].
    rewrite Hres in Hcmd.
    destruct (supervise_shape (on_calls (fun a => negb (is_spawn a)))
                env cmd (set_ffmpeg_cmd cmd no_locals))
      as (tag & rest & Ht & Hrest);
      try (intros; reflexivity).
    { intros a r Hs. cbn. now rewrite Hs. }
    exists cmd, (calls rest). split; [exact Hcmd|].
    rewrite Hrun, trace_of_prepend, calls_app, Hq, Ht.
    split; [reflexivity|]. now rewrite <- forallb_on_calls.
Qed.

Lemma audible_supervise (env : Env) (cmd : list string) :
  Always audible (supervise env cmd).
Proof.
  intros l.
  destruct (supervise_shape audible env cmd l) as (tag & rest & -> & Hrest);
    try (intros; reflexivity).
  cbn [forallb audible]. exact Hrest.
Qed.

(** X12.  The main thread never logs below INFO: with the root logger of
    line 9, every record that [run_ffmpeg_transcoder] logs, in any run,
    reaches the log file and the console. *)
Theorem main_thread_records_are_emitted (env : Env) (names : list string) :
  forallb audible (trace_of (run env names)) = true.
Proof.
  unfold run, run_ffmpeg_transcoder.
  apply always_bind.
  - apply always_select_profiles. reflexivity.
  - intros [|p ps]; [now apply always_log|].
    repeat first
      [ apply always_lift | apply always_update
      | apply always_log; reflexivity
      | apply always_log_profiles; intros; reflexivity
      | apply audible_supervise
      | apply always_bind; [|intros ?] ].
Qed.

Lemma join_threads_first (env : Env) (l : Locals) :
  stdout_thread l <> None ->
  exists tag t,
    trace_of (join_threads env l) = Call (IsAlive STDOUT) tag :: t
    /\ forallb is_teardown (calls t) = true.
Proof.
  intros Hout.
  pose proof (always_join_threads (on_calls is_teardown) env
                (fun a r H => H) l) as Hall.
  assert (Hhead : exists tag t,
             trace_of (join_threads env l) = Call (IsAlive STDOUT) tag :: t).
  { unfold join_threads, read, when, bind, call, ret.
    destruct (stdout_thread l); [|congruence].
    destruct (is_alive_215 env) as [[|]|e1], (join_216 env) as [[]|e2];
      cbn; destruct (stderr_thread l);
      destruct (is_alive_217 env) as [[|]|e3], (join_218 env) as [[]|e4];
      cbn; eexists _, _; reflexivity. }
  destruct Hhead as (tag & t & Ht). exists tag, t. split; [exact Ht|].
  rewrite Ht in Hall. cbn [forallb on_calls is_teardown andb] in Hall.
  now rewrite <- forallb_on_calls.
Qed.

(** When the spawn raises, the run makes no other call. *)
Lemma failed_spawn_calls (env : Env) (names : list string) (e : exn) :
  resolved ALL_STREAM_PROFILES names <> [] ->
  popen_176 env = Raised e ->
  exists cmd, calls (trace_of (run env names)) = [Popen cmd].
Proof.
  intros Hne Hp.
  destruct (run_supervises env names Hne) as (cmd & pre & Hcmd & Hq & Hrun).
  set (l := set_process None (set_ffmpeg_cmd cmd no_locals)).
  pose proof (body_spawn_failure env cmd l e Hp) as Hb.
  pose proof (join_threads_unbound env l eq_refl) as Hj.
  assert (Hh : exists th,
             (match e with
              | KeyboardInterrupt => on_keyboard_interrupt env
              | _ => on_exception env e
              end) l = (Normal tt, l, th) /\ calls th = []).
  { destruct e;
      first [ rewrite (interrupt_no_child env l eq_refl)
            | rewrite (exception_no_child env l _ eq_refl) ];
      eexists; split; reflexivity. }
  destruct Hh as (th & Hh & Hth).
  pose proof (supervise_handled env cmd _ _ _ _ _ _ _ _ _ Hb
                (handlers_total env e) Hh Hj) as Hsup.
  exists cmd.
  rewrite Hrun, Hsup, trace_of_prepend.
  unfold trace_of. cbn [snd].
  rewrite !calls_app, Hq, Hth. reflexivity.
Qed.

(** A thread is started only in a run whose spawn returned. *)
Lemma thread_start_after_spawn (env : Env) (names : list string) :
  In (ThreadStart STDOUT) (calls (trace_of (run env names))) ->
  resolved ALL_STREAM_PROFILES names <> [] /\ popen_176 env = Normal tt.
Proof.
  intros Hin.
  assert (Hne : resolved ALL_STREAM_PROFILES names <> []).
  { intros Hres. rewrite (run_unresolved env names Hres) in Hin.
    unfold trace_of in Hin. cbn [snd] in Hin.
    rewrite calls_app, warnings_quiet in Hin. destruct Hin. }
  split; [exact Hne|].
  destruct (popen_176 env) as [[]|e] eqn:Hp; [reflexivity|].
  destruct (failed_spawn_calls env names e Hne Hp) as [cmd Hc].
  rewrite Hc in Hin. destruct Hin as [H|[]]. discriminate.
Qed.

(** X13.  Once [stdout_thread.start()] has been called (line 191), so that
    the child and both thread objects exist, the [finally] block reaches the
    threads however the [try] statement ends and whatever the later calls
    answer: the calls of the run are the spawn, then calls that are neither
    spawns nor [is_alive]/[join] calls, then [stdout_thread.is_alive()],
    then nothing but [is_alive] and [join] calls. *)
Theorem started_threads_are_always_joined (env : Env) (names : list string) :
  In (ThreadStart STDOUT) (calls (trace_of (run env names))) ->
  exists cmd middle teardown,
    build_ffmpeg_command RTSP_INPUT_URL
      (resolved ALL_STREAM_PROFILES names) MEDIAMTX_RTSP_BASE_URL = Normal cmd
    /\ calls (trace_of (run env names))
       = Popen cmd :: middle ++ IsAlive STDOUT :: teardown
    /\ In (ThreadStart STDOUT) middle
    /\ forallb (fun a => negb (is_spawn a) && negb (is_teardown a)) middle
       = true
    /\ forallb is_teardown teardown = true.
Proof.
  intros Hin.
  destruct (thread_start_after_spawn env names Hin) as [Hne Hp].
  destruct (run_supervises env names Hne) as (cmd & pre & Hcmd & Hq & Hrun).
  set (l := set_process None (set_ffmpeg_cmd cmd no_locals)).
  set (P := on_calls (fun a => negb (is_spawn a) && negb (is_teardown a))).
  assert (Hc : forall a r, is_spawn a = false -> is_teardown a = false ->
                           P (Call a r) = true)
    by (intros a r Hs Ht; cbn; now rewrite Hs, Ht).
  destruct (always_after_spawn P Hc (fun _ => eq_refl) env cmd l)
    as (tag & rest & Hb & Hrest).
  pose proof (always_handler_trace P env (supervise_body env cmd l)
                (always_handlers P Hc (fun _ => eq_refl) (fun _ => eq_refl)
                   (fun _ => eq_refl) env)) as Hh.
  destruct (join_threads_first env (locals_of (supervise_body env cmd l)))
    as (tag' & tf & Hj & Htf).
  { rewrite body_locals, Hp. discriminate. }
  assert (Hcalls : calls (trace_of (run env names))
                   = Popen cmd
                     :: calls (rest
                               ++ handler_trace env (supervise_body env cmd l))
                     ++ IsAlive STDOUT :: calls tf).
  { rewrite Hrun, trace_of_prepend, calls_app, Hq, supervise_phases.
    fold l. rewrite Hb, Hj. cbn [app calls]. rewrite !calls_app.
    cbn [calls]. now rewrite <- app_assoc. }
  assert (Hmid : forallb
                   (fun a => negb (is_spawn a) && negb (is_teardown a))
                   (calls (rest
                           ++ handler_trace env (supervise_body env cmd l)))
                 = true).
  { rewrite <- forallb_on_calls. fold P. rewrite forallb_app.
    now rewrite Hrest, Hh. }
  exists cmd,
    (calls (rest ++ handler_trace env (supervise_body env cmd l))),
    (calls tf).
  split; [exact Hcmd|]. split; [exact Hcalls|].
  split; [|split; [exact Hmid|exact Htf]].
  rewrite Hcalls in Hin. destruct Hin as [Hin|Hin]; [discriminate|].
  apply in_app_or in Hin. destruct Hin as [Hin|Hin]; [exact Hin|].
  destruct Hin as [Hin|Hin]; [discriminate|].
  rewrite forallb_forall in Htf. apply Htf in Hin. discriminate.
Qed.

Lemma started_threads_are_always_joined_witness :
  exists cmd middle teardown,
    build_ffmpeg_command RTSP_INPUT_URL
      (resolved ALL_STREAM_PROFILES ["high"]) MEDIAMTX_RTSP_BASE_URL = Normal cmd
    /\ calls (trace_of (run env_twice ["high"]))
       = Popen cmd :: middle ++ IsAlive STDOUT :: teardown
    /\ In (ThreadStart STDOUT) middle
    /\ forallb (fun a => negb (is_spawn a) && negb (is_teardown a)) middle
       = true
    /\ forallb is_teardown teardown = true.
Proof.
  apply (started_threads_are_always_joined env_twice ["high"]).
  vm_compute. repeat first [left; reflexivity | right].
Defined.

(** ** When the child is signalled *)

Lemma body_never_signals (env : Env) (cmd : list string) (l : Locals)
    (a : action) :
  In a (calls (trace_of (supervise_body env cmd l))) -> is_signal a = false.
Proof.
  unfold supervise_body, bind, call, update, log.
  destruct (popen_176 env) as [[]|e0], (start_191 env) as [[]|e1],
    (start_192 env) as [[]|e2], (wait_195 env) as [c|e3]; cbn;
    intros H; repeat (destruct H as [<-|H]; [reflexivity|]); easy.
Qed.

Lemma teardown_never_signals (env : Env) (l : Locals) (a : action) :
  In a (calls (trace_of (join_threads env l))) -> is_signal a = false.
Proof.
  intros H.
  pose proof (always_join_threads (on_calls is_teardown) env
                (fun a r H => H) l) as Hall.
  rewrite forallb_on_calls, forallb_forall in Hall.
  specialize (Hall a H). now destruct a.
Qed.

Lemma interrupt_clause_signals (env : Env) (l : Locals) (a : action) :
  In a (calls (trace_of (on_keyboard_interrupt env l))) ->
  is_signal a = true ->
  process l <> None /\ poll_201 env = Normal None
  /\ (a = Kill ->
      terminate_202 env = Normal tt /\ wait_204 env = Raised TimeoutExpired).
Proof.
  unfold on_keyboard_interrupt, on_timeout, still_running, when, try_except,
    bind, call, log, get, ret.
  destruct (process l) as [p|];
    [|cbn; intros H; repeat (destruct H as [<-|H]; [discriminate|]); easy].
  destruct (poll_201 env) as [[c|]|e0]; cbn;
    try (intros H; repeat (destruct H as [<-|H]; [discriminate|]); easy).
  destruct (terminate_202 env) as [[]|e1]; cbn;
    [|intros H Hs; repeat (destruct H as [<-|H]; [|]); try discriminate;
      try easy; repeat split; discriminate].
  destruct (wait_204 env) as [c|e2]; [|destruct e2]; cbn;
    try destruct (kill_207 env) as [[]|e3]; cbn;
    try destruct (wait_208 env) as [c'|e4]; cbn;
    intros H Hs; repeat (destruct H as [<-|H]; [|]); try discriminate;
    try easy; repeat split; try reflexivity; try discriminate.
Qed.

Lemma exception_clause_signals (env : Env) (e : exn) (l : Locals)
    (a : action) :
  In a (calls (trace_of (on_exception env e l))) ->
  is_signal a = true ->
  a = Kill /\ process l <> None /\ poll_212 env = Normal None.
Proof.
  unfold on_exception, still_running, when, bind, call, log, get, ret.
  destruct (process l) as [p|];
    [|cbn; intros H; repeat (destruct H as [<-|H]; [discriminate|]); easy].
  destruct (poll_212 env) as [[c|]|e0]; cbn;
    try destruct (kill_213 env) as [[]|e1]; cbn;
    intros H Hs; repeat (destruct H as [<-|H]; [|]); try discriminate;
    try easy; repeat split; discriminate.
Qed.

(** X14.  The child is signalled only when it was spawned and a poll has
    just shown it running: [terminate] is called only after Ctrl+C and a poll
    that returned [None]; [kill] is called only after that [terminate]
    returned and the wait of 10 timed out, or, on the error path, after a
    poll that returned [None].  This holds in every run. *)
Theorem child_is_signalled_only_when_running (env : Env)
    (names : list string) (a : action) :
  In a (calls (trace_of (run env names))) ->
  is_signal a = true ->
  popen_176 env = Normal tt
  /\ ((poll_201 env = Normal None
       /\ (a = Kill ->
           terminate_202 env = Normal tt
           /\ wait_204 env = Raised TimeoutExpired))
      \/ (a = Kill /\ poll_212 env = Normal None)).
Proof.
  intros Hin Hs.
  destruct (resolved ALL_STREAM_PROFILES names) as [|p ps] eqn:Hres.
  { rewrite (run_unresolved env names Hres) in Hin. unfold trace_of in Hin.
    cbn [snd] in Hin. rewrite calls_app, warnings_quiet in Hin. easy. }
  destruct (run_supervises env names) as (cmd & pre & Hcmd & Hq & Hrun);
    [rewrite Hres; discriminate|].
  rewrite Hrun, trace_of_prepend, calls_app, Hq, supervise_phases in Hin.
  cbn [app] in Hin. rewrite !calls_app in Hin.
  set (l := set_process None (set_ffmpeg_cmd cmd no_locals)) in *.
  assert (Hspawn : process (locals_of (supervise_body env cmd l)) <> None ->
                   popen_176 env = Normal tt).
  { rewrite body_locals. destruct (popen_176 env) as [[]|e]; [reflexivity|].
    intros H. now contradiction H. }
  apply in_app_or in Hin. destruct Hin as [Hin|Hin].
  { apply body_never_signals in Hin. congruence. }
  apply in_app_or in Hin. destruct Hin as [Hin|Hin].
  - unfold handler_trace in Hin.
    destruct (outcome_of (supervise_body env cmd l)) as [u|e]; [easy|].
    rewrite handlers_total in Hin.
    destruct e;
      first
        [ destruct (interrupt_clause_signals env _ a Hin Hs)
            as (Hproc & Hpoll & Hk);
          split; [now apply Hspawn|left; now split]
        | destruct (exception_clause_signals env _ _ a Hin Hs)
            as (Ha & Hproc & Hpoll);
          split; [now apply Hspawn|right; now split] ].
  - apply teardown_never_signals in Hin. congruence.
Qed.

Lemma child_is_signalled_only_when_running_witness :
  popen_176 env_stubborn = Normal tt
  /\ ((poll_201 env_stubborn = Normal None
       /\ (Kill = Kill ->
           terminate_202 env_stubborn = Normal tt
           /\ wait_204 env_stubborn = Raised TimeoutExpired))
      \/ (Kill = Kill /\ poll_212 env_stubborn = Normal None)).
Proof.
  apply (child_is_signalled_only_when_running env_stubborn ["low"] Kill).
  - vm_compute. repeat first [left; reflexivity | right].
  - reflexivity.
Defined.

(** ** Unknown names *)

Lemma known_filter_resolved (registry : list Profile) (names : list string) :
  resolved registry (filter (known registry) names) = resolved registry names.
Proof.
  induction names as [|n names IH]; cbn [filter resolved]; [reflexivity|].
  destruct (known registry n) eqn:Hk.
  - cbn [resolved]. now rewrite IH.
  - apply find_profile_none in Hk. now rewrite Hk.
Qed.

Lemma known_filter_warnings (registry : list Profile) (names : list string) :
  warnings registry (filter (known registry) names) = [].
Proof.
  unfold warnings.
  induction names as [|n names IH]; cbn [filter]; [reflexivity|].
  destruct (known registry n) eqn:Hk; [|exact IH].
  cbn [filter]. now rewrite Hk.
Qed.

Lemma prepend_nil {A} (x : result A * Locals * list event) : prepend [] x = x.
Proof. now destruct x as [[r l] t]. Qed.

(** X15.  Unknown names cost a warning each and nothing else: a run on any
    list of names is the run on its known names, with the warnings of the
    unknown ones logged first; the outcome, the locals, the calls and all
    later records are the same. *)
Theorem unknown_names_only_warn (env : Env) (names : list string) :
  run env names
  = prepend (warnings ALL_STREAM_PROFILES names)
      (run env (filter (known ALL_STREAM_PROFILES) names))
  /\ calls (trace_of (run env names))
     = calls (trace_of (run env (filter (known ALL_STREAM_PROFILES) names))).
Proof.
  assert (H : run env names
              = prepend (warnings ALL_STREAM_PROFILES names)
                  (run env (filter (known ALL_STREAM_PROFILES) names))).
  { unfold run, run_ffmpeg_transcoder.
    rewrite !(bind_normal _ _ _ _ _ _ (select_profiles_acc _ _ _ _)).
    rewrite known_filter_resolved, known_filter_warnings, prepend_nil.
    reflexivity. }
  split; [exact H|].
  now rewrite H, trace_of_prepend, calls_app, warnings_quiet.
Qed.

(** ** From the requested names to the sinks *)

Lemma filter_all {A} (f : A -> bool) (xs : list A) :
  (forall x, In x xs -> f x = true) -> filter f xs = xs.
Proof.
  induction xs as [|x xs IH]; intros H; cbn [filter]; [reflexivity|].
  rewrite (H x (or_introl eq_refl)), IH; [reflexivity|].
  intros y Hy. apply H. now right.
Qed.

(** The preamble holds INFO records only. *)
Lemma preamble_no_skip_warning (ps : list Profile) (cmd : list string) :
  forallb no_skip_warning (preamble ps cmd) = true.
Proof.
  unfold preamble. cbn [app forallb no_skip_warning andb].
  rewrite forallb_app. cbn [forallb no_skip_warning andb].
  rewrite andb_true_r.
  induction ps as [|p ps IH]; cbn [flat_map]; [reflexivity|].
  rewrite forallb_app, IH, andb_true_r. unfold profile_records.
  now destruct (output_fps p), (x265_extra_opts p).
Qed.

(** The only warning of the [try] statement is the one of line 206. *)
Lemma supervise_no_skip_warning (env : Env) (cmd : list string) (l : Locals) :
  forallb no_skip_warning (trace_of (supervise env cmd l)) = true.
Proof.
  assert (Hc : forall a r, is_spawn a = false -> is_teardown a = false ->
                           no_skip_warning (Call a r) = true)
    by reflexivity.
  rewrite supervise_phases, !forallb_app.
  destruct (always_after_spawn no_skip_warning Hc (fun _ => eq_refl)
              env cmd (set_process None l)) as (tag & rest & -> & Hrest).
  cbn [forallb no_skip_warning]. rewrite Hrest.
  rewrite (always_join_threads no_skip_warning env (fun _ _ _ => eq_refl)).
  rewrite always_handler_trace; [reflexivity|].
  intros e h. rewrite handlers_total. intros [= <-].
  destruct e; try apply (always_on_exception _ Hc (fun _ => eq_refl)).
  intros l'.
  unfold on_keyboard_interrupt, on_timeout, still_running, when, try_except,
    bind, call, log, get, ret.
  destruct (process l'); [|reflexivity].
  destruct (poll_201 env) as [[c|]|e0]; cbn; try reflexivity.
  destruct (terminate_202 env) as [[]|e1]; cbn; try reflexivity.
  destruct (wait_204 env) as [c|e2]; [|destruct e2]; cbn; try reflexivity.
  destruct (kill_207 env) as [[]|e3]; cbn; try reflexivity.
  destruct (wait_208 env); reflexivity.
Qed.

(** X16.  What the command line asks for is what is published: when every
    requested name is in the registry and there is at least one (which the
    argument parser of lines 231-240 guarantees), every name is resolved,
    the run logs no warning about a skipped name, it begins with the
    preamble of lines 160-172 for the requested profiles, its first call
    spawns the compiled command, and the sinks of that command are the base
    URL followed by each requested name, in request order, repeated names
    included. *)
Theorem requested_names_become_sinks (env : Env) (names : list string) :
  names <> [] ->
  (forall n, In n names -> known ALL_STREAM_PROFILES n = true) ->
  exists cmd tag rest,
    build_ffmpeg_command RTSP_INPUT_URL
      (resolved ALL_STREAM_PROFILES names) MEDIAMTX_RTSP_BASE_URL = Normal cmd
    /\ map name (resolved ALL_STREAM_PROFILES names) = names
    /\ trace_of (run env names)
       = preamble (resolved ALL_STREAM_PROFILES names) cmd
         ++ Call (Popen cmd) tag :: rest
    /\ (forall n,
          ~ In (Log WARNING (unknown_profile_msg n)) (trace_of (run env names)))
    /\ sinks cmd
       = map (fun n => (MEDIAMTX_RTSP_BASE_URL ++ "/" ++ n)%string) names.
Proof.
  intros Hne Hknown.
  pose proof (resolved_names ALL_STREAM_PROFILES names) as Hnames.
  rewrite (filter_all _ _ Hknown) in Hnames.
  assert (Hw : warnings ALL_STREAM_PROFILES names = []).
  { rewrite <- (filter_all _ _ Hknown). apply known_filter_warnings. }
  assert (Hres : resolved ALL_STREAM_PROFILES names <> []).
  { intros Hres. rewrite Hres in Hnames. cbn in Hnames. congruence. }
  destruct (registry_selection_compiles names) as [cmd Hcmd].
  pose proof (run_started env names cmd Hres Hcmd) as Hrun.
  rewrite Hw in Hrun. cbn [app] in Hrun.
  destruct (supervise_shape (fun _ => true) env cmd
              (set_ffmpeg_cmd cmd no_locals))
    as (tag & rest & Ht & _); try (intros; reflexivity).
  exists cmd, tag, rest.
  split; [exact Hcmd|]. split; [exact Hnames|]. split; [|split].
  - now rewrite Hrun, trace_of_prepend, Ht.
  - intros n Hin. rewrite Hrun, trace_of_prepend in Hin.
    assert (Hall : forallb no_skip_warning
                     (preamble (resolved ALL_STREAM_PROFILES names) cmd
                      ++ trace_of (supervise env cmd
                                     (set_ffmpeg_cmd cmd no_locals)))
                   = true)
      by (rewrite forallb_app, preamble_no_skip_warning,
            supervise_no_skip_warning; reflexivity).
    rewrite forallb_forall in Hall. apply Hall in Hin.
    unfold unknown_profile_msg in Hin. cbn in Hin. discriminate.
  - assert (Hflag : Forall no_sink_flag (resolved ALL_STREAM_PROFILES names))
      by (apply selection_from_registry;
          [apply registry_no_sink_flag|apply resolved_in_registry]).
    rewrite (sinks_of_compiled _ _ _ _ Hflag Hcmd).
    rewrite <- Hnames at 2. rewrite map_map. reflexivity.
Qed.

Lemma requested_names_become_sinks_witness :
  exists cmd tag rest,
    build_ffmpeg_command RTSP_INPUT_URL
      (resolved ALL_STREAM_PROFILES ["low"; "high"; "low"])
      MEDIAMTX_RTSP_BASE_URL = Normal cmd
    /\ map name (resolved ALL_STREAM_PROFILES ["low"; "high"; "low"])
       = ["low"; "high"; "low"]
    /\ trace_of (run env_stubborn ["low"; "high"; "low"])
       = preamble (resolved ALL_STREAM_PROFILES ["low"; "high"; "low"]) cmd
         ++ Call (Popen cmd) tag :: rest
    /\ (forall n,
          ~ In (Log WARNING (unknown_profile_msg n))
               (trace_of (run env_stubborn ["low"; "high"; "low"])))
    /\ sinks cmd
       = map (fun n => (MEDIAMTX_RTSP_BASE_URL ++ "/" ++ n)%string)
           ["low"; "high"; "low"].
Proof.
  apply (requested_names_become_sinks env_stubborn ["low"; "high"; "low"]).
  - discriminate.
  - intros n [<-|[<-|[<-|[]]]]; reflexivity.
Defined.
